(** * Sleep / wake control of the ATtiny85 - ATmega328P watchdog sketch

    A shallow embedding of [try_attiny85_watchdog_and_user_interrupt.ino]
    (and of its earlier revision, which differs in the budget, in the INT0
    sense control on the ATtiny85 and in the body of the INT0 handler).

    The sketch is a main loop that sleeps in power-down mode and three
    interrupt handlers.  The program text is embedded as functions from
    machine states to a machine state and the list of I/O actions performed;
    the interrupt controller of the AVR core (flags, masks, vector priority,
    wake-up from sleep) is a deterministic step function driven by a list of
    hardware events. *)

From Stdlib Require Import ZArith List Bool Lia.
Import ListNotations.
Local Open Scope Z_scope.

(** ** Build profiles *)

(** The two [#if defined(...)] branches of the sketch. *)
Inductive mcu := ATmega328P | ATtiny85.

(** The two revisions of the sketch found in the repository. *)
Inductive revision := Current | Earlier.

Record config := { target : mcu; rev : revision }.

(** ** Registers and bits *)

Module Avr.

Definition _BV (bit : Z) : Z := Z.shiftl 1 bit.

(** [reg |= mask] and [reg &= ~mask] on an 8-bit register. *)
Definition set_bits (reg mask : Z) : Z := Z.lor reg mask.
Definition clear_bits (reg mask : Z) : Z := Z.ldiff reg mask.

(** Bit numbers of the device headers.  WDTCR/WDTCSR and MCUSR have the
    same layout on both devices. *)
Definition WDIE := 6.
Definition WDE := 3.
Definition WDRF := 3.
Definition ISC00 := 0.
Definition ISC01 := 1.

(** INT0 enable bit: bit 0 of EIMSK on the ATmega328P, bit 6 of GIMSK on
    the ATtiny85. *)
Definition INT0 (m : mcu) : Z :=
  match m with ATmega328P => 0 | ATtiny85 => 6 end.

(** Pin-change enable bit: PCIE0 is bit 0 of PCICR on the ATmega328P, PCIE
    is bit 5 of GIMSK on the ATtiny85. *)
Definition PCIE (m : mcu) : Z :=
  match m with ATmega328P => 0 | ATtiny85 => 5 end.

Definition PCINT1 := 1.
Definition PCINT3 := 3.

(** The value [wdt_enable(WDTO_8S)] leaves in the watchdog control register:
    WDE with the prescaler bits WDP3 and WDP0. *)
Definition WDTO_8S_bits : Z := Z.lor (_BV 5) (_BV 0).

(** [int8_t] wrap-around. *)
Definition int8 (z : Z) : Z := (z + 128) mod 256 - 128.

End Avr.
Import Avr.

(** ** Pins *)

Definition WATCHDOG_TIMEOUT_LED_PIN (m : mcu) : Z :=
  match m with ATmega328P => 13 | ATtiny85 => 0 end.
Definition SLEEP_INTERRUPT_LED_PIN (m : mcu) : Z :=
  match m with ATmega328P => 12 | ATtiny85 => 1 end.
Definition INT0_PIN (m : mcu) : Z :=
  match m with ATmega328P => 2 | ATtiny85 => 2 end.
Definition PCINT0_PIN (m : mcu) : Z :=
  match m with ATmega328P => 8 | ATtiny85 => 3 end.

(** Pin-change mask bit wired to [PCINT0_PIN]: board pin 8 of the ATmega328P
    board is PB0, that is PCINT0; PB3 of the ATtiny85 is PCINT3. *)
Definition pcint_bit_of_pin (m : mcu) : Z :=
  match m with ATmega328P => 0 | ATtiny85 => 3 end.

(** ** Observable actions *)

Inductive vector := INT0_vect | PCINT0_vect | WDT_vect.

Inductive action :=
| PinMode (pin : Z) (output : bool)
| DigitalWrite (pin : Z) (high : bool)
| Delay (ms : Z)
| Interrupt (v : vector)      (* the core enters a handler *)
| Wakeup.                     (* [sleep_cpu()] returns to the main loop *)

Definition trace := list action.

(** ** Machine state *)

Inductive context := Sleeping | Awake.

Record state := {
  watchdogTimeoutsRemaining : Z;   (* the [int8_t] global *)
  WDTCR : Z;                       (* [_WD_CONTROL_REG], without WDIF *)
  MCUSR : Z;
  INTCTL : Z;                      (* EICRA, resp. the ISC bits of MCUCR *)
  INTMSK : Z;                      (* EIMSK, resp. GIMSK *)
  PCICR : Z;                       (* ATmega328P only *)
  PCMSK : Z;                       (* PCMSK0, resp. PCMSK *)
  SREG_I : bool;                   (* global interrupt enable *)
  SE : bool;                       (* sleep enable *)
  WDIF : bool;                     (* pending watchdog interrupt *)
  INTF0 : bool;                    (* pending edge on INT0 *)
  PCIF : bool;                     (* pending pin change *)
  int0_level : bool;               (* electrical level of the INT0 input *)
  pcint_level : bool;              (* electrical level of the PCINT input *)
  main : context
}.

Definition with_counter (v : Z) (s : state) : state :=
  {| watchdogTimeoutsRemaining := v; WDTCR := WDTCR s; MCUSR := MCUSR s;
     INTCTL := INTCTL s; INTMSK := INTMSK s; PCICR := PCICR s;
     PCMSK := PCMSK s; SREG_I := SREG_I s; SE := SE s; WDIF := WDIF s;
     INTF0 := INTF0 s; PCIF := PCIF s; int0_level := int0_level s;
     pcint_level := pcint_level s; main := main s |}.

Definition with_WDTCR (v : Z) (s : state) : state :=
  {| watchdogTimeoutsRemaining := watchdogTimeoutsRemaining s; WDTCR := v;
     MCUSR := MCUSR s;
     INTCTL := INTCTL s; INTMSK := INTMSK s; PCICR := PCICR s;
     PCMSK := PCMSK s; SREG_I := SREG_I s; SE := SE s; WDIF := WDIF s;
     INTF0 := INTF0 s; PCIF := PCIF s; int0_level := int0_level s;
     pcint_level := pcint_level s; main := main s |}.

Definition with_MCUSR (v : Z) (s : state) : state :=
  {| watchdogTimeoutsRemaining := watchdogTimeoutsRemaining s;
     WDTCR := WDTCR s; MCUSR := v;
     INTCTL := INTCTL s; INTMSK := INTMSK s; PCICR := PCICR s;
     PCMSK := PCMSK s; SREG_I := SREG_I s; SE := SE s; WDIF := WDIF s;
     INTF0 := INTF0 s; PCIF := PCIF s; int0_level := int0_level s;
     pcint_level := pcint_level s; main := main s |}.

Definition with_INTCTL (v : Z) (s : state) : state :=
  {| watchdogTimeoutsRemaining := watchdogTimeoutsRemaining s;
     WDTCR := WDTCR s; MCUSR := MCUSR s;
     INTCTL := v; INTMSK := INTMSK s; PCICR := PCICR s;
     PCMSK := PCMSK s; SREG_I := SREG_I s; SE := SE s; WDIF := WDIF s;
     INTF0 := INTF0 s; PCIF := PCIF s; int0_level := int0_level s;
     pcint_level := pcint_level s; main := main s |}.

Definition with_INTMSK (v : Z) (s : state) : state :=
  {| watchdogTimeoutsRemaining := watchdogTimeoutsRemaining s;
     WDTCR := WDTCR s; MCUSR := MCUSR s;
     INTCTL := INTCTL s; INTMSK := v; PCICR := PCICR s;
     PCMSK := PCMSK s; SREG_I := SREG_I s; SE := SE s; WDIF := WDIF s;
     INTF0 := INTF0 s; PCIF := PCIF s; int0_level := int0_level s;
     pcint_level := pcint_level s; main := main s |}.

Definition with_PCICR (v : Z) (s : state) : state :=
  {| watchdogTimeoutsRemaining := watchdogTimeoutsRemaining s;
     WDTCR := WDTCR s; MCUSR := MCUSR s;
     INTCTL := INTCTL s; INTMSK := INTMSK s; PCICR := v;
     PCMSK := PCMSK s; SREG_I := SREG_I s; SE := SE s; WDIF := WDIF s;
     INTF0 := INTF0 s; PCIF := PCIF s; int0_level := int0_level s;
     pcint_level := pcint_level s; main := main s |}.

Definition with_PCMSK (v : Z) (s : state) : state :=
  {| watchdogTimeoutsRemaining := watchdogTimeoutsRemaining s;
     WDTCR := WDTCR s; MCUSR := MCUSR s;
     INTCTL := INTCTL s; INTMSK := INTMSK s; PCICR := PCICR s;
     PCMSK := v; SREG_I := SREG_I s; SE := SE s; WDIF := WDIF s;
     INTF0 := INTF0 s; PCIF := PCIF s; int0_level := int0_level s;
     pcint_level := pcint_level s; main := main s |}.

Definition with_SREG_I (v : bool) (s : state) : state :=
  {| watchdogTimeoutsRemaining := watchdogTimeoutsRemaining s;
     WDTCR := WDTCR s; MCUSR := MCUSR s;
     INTCTL := INTCTL s; INTMSK := INTMSK s; PCICR := PCICR s;
     PCMSK := PCMSK s; SREG_I := v; SE := SE s; WDIF := WDIF s;
     INTF0 := INTF0 s; PCIF := PCIF s; int0_level := int0_level s;
     pcint_level := pcint_level s; main := main s |}.

Definition with_SE (v : bool) (s : state) : state :=
  {| watchdogTimeoutsRemaining := watchdogTimeoutsRemaining s;
     WDTCR := WDTCR s; MCUSR := MCUSR s;
     INTCTL := INTCTL s; INTMSK := INTMSK s; PCICR := PCICR s;
     PCMSK := PCMSK s; SREG_I := SREG_I s; SE := v; WDIF := WDIF s;
     INTF0 := INTF0 s; PCIF := PCIF s; int0_level := int0_level s;
     pcint_level := pcint_level s; main := main s |}.

Definition with_WDIF (v : bool) (s : state) : state :=
  {| watchdogTimeoutsRemaining := watchdogTimeoutsRemaining s;
     WDTCR := WDTCR s; MCUSR := MCUSR s;
     INTCTL := INTCTL s; INTMSK := INTMSK s; PCICR := PCICR s;
     PCMSK := PCMSK s; SREG_I := SREG_I s; SE := SE s; WDIF := v;
     INTF0 := INTF0 s; PCIF := PCIF s; int0_level := int0_level s;
     pcint_level := pcint_level s; main := main s |}.

Definition with_INTF0 (v : bool) (s : state) : state :=
  {| watchdogTimeoutsRemaining := watchdogTimeoutsRemaining s;
     WDTCR := WDTCR s; MCUSR := MCUSR s;
     INTCTL := INTCTL s; INTMSK := INTMSK s; PCICR := PCICR s;
     PCMSK := PCMSK s; SREG_I := SREG_I s; SE := SE s; WDIF := WDIF s;
     INTF0 := v; PCIF := PCIF s; int0_level := int0_level s;
     pcint_level := pcint_level s; main := main s |}.

Definition with_PCIF (v : bool) (s : state) : state :=
  {| watchdogTimeoutsRemaining := watchdogTimeoutsRemaining s;
     WDTCR := WDTCR s; MCUSR := MCUSR s;
     INTCTL := INTCTL s; INTMSK := INTMSK s; PCICR := PCICR s;
     PCMSK := PCMSK s; SREG_I := SREG_I s; SE := SE s; WDIF := WDIF s;
     INTF0 := INTF0 s; PCIF := v; int0_level := int0_level s;
     pcint_level := pcint_level s; main := main s |}.

Definition with_int0_level (v : bool) (s : state) : state :=
  {| watchdogTimeoutsRemaining := watchdogTimeoutsRemaining s;
     WDTCR := WDTCR s; MCUSR := MCUSR s;
     INTCTL := INTCTL s; INTMSK := INTMSK s; PCICR := PCICR s;
     PCMSK := PCMSK s; SREG_I := SREG_I s; SE := SE s; WDIF := WDIF s;
     INTF0 := INTF0 s; PCIF := PCIF s; int0_level := v;
     pcint_level := pcint_level s; main := main s |}.

Definition with_pcint_level (v : bool) (s : state) : state :=
  {| watchdogTimeoutsRemaining := watchdogTimeoutsRemaining s;
     WDTCR := WDTCR s; MCUSR := MCUSR s;
     INTCTL := INTCTL s; INTMSK := INTMSK s; PCICR := PCICR s;
     PCMSK := PCMSK s; SREG_I := SREG_I s; SE := SE s; WDIF := WDIF s;
     INTF0 := INTF0 s; PCIF := PCIF s; int0_level := int0_level s;
     pcint_level := v; main := main s |}.

Definition with_main (v : context) (s : state) : state :=
  {| watchdogTimeoutsRemaining := watchdogTimeoutsRemaining s;
     WDTCR := WDTCR s; MCUSR := MCUSR s;
     INTCTL := INTCTL s; INTMSK := INTMSK s; PCICR := PCICR s;
     PCMSK := PCMSK s; SREG_I := SREG_I s; SE := SE s; WDIF := WDIF s;
     INTF0 := INTF0 s; PCIF := PCIF s; int0_level := int0_level s;
     pcint_level := pcint_level s; main := v |}.

(** ** Programs: state transformers that log their I/O *)

Definition prog := state -> state * trace.

Definition skip : prog := fun s => (s, []).
Definition emit (a : action) : prog := fun s => (s, [a]).
Definition update (f : state -> state) : prog := fun s => (f s, []).

Definition seq (p q : prog) : prog :=
  fun s => let (s1, t1) := p s in
           let (s2, t2) := q s1 in (s2, t1 ++ t2).

Declare Scope prog_scope.
Delimit Scope prog_scope with prog.
Bind Scope prog_scope with prog.
Notation "p ;; q" := (seq p q)
  (at level 61, right associativity) : prog_scope.
Local Open Scope prog_scope.

Fixpoint times (n : nat) (p : prog) : prog :=
  match n with
  | O => skip
  | S k => p ;; times k p
  end.

(** ** Library calls of the Arduino core and of avr-libc *)

Definition pinMode (pin : Z) (output : bool) : prog := emit (PinMode pin output).
Definition digitalWrite (pin : Z) (high : bool) : prog :=
  emit (DigitalWrite pin high).
Definition delay (ms : Z) : prog := emit (Delay ms).

Definition sei : prog := update (with_SREG_I true).
Definition set_sleep_mode_PWR_DOWN : prog := skip.
Definition sleep_enable : prog := update (with_SE true).
Definition sleep_disable : prog := update (with_SE false).

(** [sleep_cpu()] halts the main context when sleep is enabled; what follows
    it in [loop] runs once the core has been woken ([loop_resume] below). *)
Definition sleep_cpu : prog :=
  update (fun s => if SE s then with_main Sleeping s else s).

(** A store to the watchdog control register.  WDE cannot be cleared while
    WDRF is set in MCUSR (the data-sheet note that [disable_watchdog] cites):
    the reset flag overrides it. *)
Definition store_WDTCR (v : Z) : prog :=
  update (fun s =>
    with_WDTCR (if Z.testbit (MCUSR s) WDRF then Z.lor v (_BV WDE) else v) s).

Definition wdt_enable_8S : prog :=
  store_WDTCR (Z.lor (_BV WDE) WDTO_8S_bits).
Definition wdt_disable : prog := store_WDTCR 0.

(** ** The sketch *)

Section Sketch.

Variable cfg : config.

Let m := target cfg.

Definition initial_budget : Z :=
  match rev cfg with Current => 10 | Earlier => 20 end.

Definition turnOnLED (pin ms : Z) : prog :=
  digitalWrite pin true ;; delay ms ;; digitalWrite pin false.

Definition flashLED (pin n : Z) : prog :=
  times (Z.to_nat n)
    (digitalWrite pin true ;; delay 200 ;;
     digitalWrite pin false ;; delay 200).

Definition configInputWithPullup (pin : Z) : prog :=
  pinMode pin false ;; digitalWrite pin true.

(** [MCUSR &= ~_BV(WDRF)] *)
Definition clear_WDRF : prog :=
  update (fun s => with_MCUSR (clear_bits (MCUSR s) (_BV WDRF)) s).

Definition disable_watchdog : prog := clear_WDRF ;; wdt_disable.

Definition configInt0 : prog :=
  match m with
  | ATmega328P =>
      update (with_INTMSK (_BV (INT0 ATmega328P))) ;;
      update (with_INTCTL (_BV ISC01))
  | ATtiny85 =>
      update (fun s =>
        with_INTMSK (set_bits (INTMSK s) (_BV (INT0 ATtiny85))) s) ;;
      match rev cfg with
      | Current =>
          update (fun s =>
            with_INTCTL
              (clear_bits (INTCTL s) (Z.lor (_BV ISC01) (_BV ISC00))) s)
      | Earlier =>
          update (fun s => with_INTCTL (set_bits (INTCTL s) (_BV ISC01)) s)
      end
  end.

Definition configPinChangeInt0 : prog :=
  match m with
  | ATmega328P =>
      update (fun s =>
        with_PCICR (set_bits (PCICR s) (_BV (PCIE ATmega328P))) s) ;;
      update (fun s => with_PCMSK (set_bits (PCMSK s) (_BV PCINT1)) s)
  | ATtiny85 =>
      update (fun s =>
        with_INTMSK (set_bits (INTMSK s) (_BV (PCIE ATtiny85))) s) ;;
      update (fun s => with_PCMSK (set_bits (PCMSK s) (_BV PCINT3)) s)
  end.

Definition rearm_WDIE : prog :=
  fun s => store_WDTCR (set_bits (WDTCR s) (_BV WDIE)) s.

Definition setup : prog :=
  disable_watchdog ;;
  pinMode (WATCHDOG_TIMEOUT_LED_PIN m) true ;;
  pinMode (SLEEP_INTERRUPT_LED_PIN m) true ;;
  configInputWithPullup (INT0_PIN m) ;;
  configInt0 ;;
  configInputWithPullup (PCINT0_PIN m) ;;
  configPinChangeInt0 ;;
  turnOnLED (WATCHDOG_TIMEOUT_LED_PIN m) 1000 ;;
  turnOnLED (SLEEP_INTERRUPT_LED_PIN m) 1000 ;;
  wdt_enable_8S ;;
  rearm_WDIE ;;
  sei.

(** [loop] up to and including [sleep_cpu()]. *)
Definition loop_enter : prog :=
  set_sleep_mode_PWR_DOWN ;; sleep_enable ;; sei ;; sleep_cpu.

(** [loop] after [sleep_cpu()] has returned. *)
Definition loop_resume : prog :=
  emit Wakeup ;;
  sleep_disable ;;
  flashLED (SLEEP_INTERRUPT_LED_PIN m) 1 ;;
  (fun s => if watchdogTimeoutsRemaining s =? 0
            then disable_watchdog s else skip s).

(** [ISR(WDT_vect)] *)
Definition ISR_WDT : prog :=
  update (fun s =>
    with_counter (int8 (watchdogTimeoutsRemaining s - 1)) s) ;;
  flashLED (WATCHDOG_TIMEOUT_LED_PIN m) 1 ;;
  rearm_WDIE.

(** [ISR(INT0_vect)] *)
Definition ISR_INT0 : prog :=
  match rev cfg with
  | Current => flashLED (WATCHDOG_TIMEOUT_LED_PIN m) 2
  | Earlier => delay 50
  end.

(** [ISR(PCINT0_vect)] *)
Definition ISR_PCINT0 : prog := delay 50.

(** ** The machine around the sketch *)

(** Register file after a reset; the input levels are the environment's.
    After a watchdog reset WDRF is set and forces WDE. *)
Definition reset_state (by_watchdog : bool) (int0 pcint : bool) : state :=
  {| watchdogTimeoutsRemaining := initial_budget;
     WDTCR := if by_watchdog then _BV WDE else 0;
     MCUSR := if by_watchdog then _BV WDRF else 0;
     INTCTL := 0; INTMSK := 0; PCICR := 0; PCMSK := 0;
     SREG_I := false; SE := false;
     WDIF := false; INTF0 := false; PCIF := false;
     int0_level := int0; pcint_level := pcint;
     main := Awake |}.

(** From reset to the first [sleep_cpu()]. *)
Definition boot_from (by_watchdog : bool) (int0 pcint : bool)
  : state * trace :=
  (setup ;; loop_enter) (reset_state by_watchdog int0 pcint).

(** Power-on with both switches open (inputs pulled high). *)
Definition boot : state * trace := boot_from false true true.

Inductive sense := LowLevel | AnyChange | FallingEdge | RisingEdge.

Definition int0_sense (s : state) : sense :=
  match Z.testbit (INTCTL s) ISC01, Z.testbit (INTCTL s) ISC00 with
  | false, false => LowLevel
  | false, true => AnyChange
  | true, false => FallingEdge
  | true, true => RisingEdge
  end.

Definition int0_edge (s : state) (old new : bool) : bool :=
  match int0_sense s with
  | LowLevel => false
  | AnyChange => xorb old new
  | FallingEdge => old && negb new
  | RisingEdge => negb old && new
  end.

Definition int0_enabled (s : state) : bool := Z.testbit (INTMSK s) (INT0 m).

Definition pcint_enabled (s : state) : bool :=
  match m with
  | ATmega328P => Z.testbit (PCICR s) (PCIE ATmega328P)
  | ATtiny85 => Z.testbit (INTMSK s) (PCIE ATtiny85)
  end.

(** An INT0 request is the latched edge flag, or, with low-level sense,
    the input being low. *)
Definition int0_request (s : state) : bool :=
  int0_enabled s &&
  match int0_sense s with
  | LowLevel => negb (int0_level s)
  | _ => INTF0 s
  end.

Definition pcint_request (s : state) : bool := pcint_enabled s && PCIF s.

Definition wdt_request (s : state) : bool :=
  Z.testbit (WDTCR s) WDIE && WDIF s.

(** What the core does when it takes a vector: the flag of the source is
    cleared (for the watchdog in interrupt-and-reset mode, WDIE as well),
    interrupts are disabled for the handler, and [reti] enables them again;
    a sleeping core is awake afterwards. *)
Definition acknowledge (v : vector) (s : state) : state :=
  match v with
  | INT0_vect => with_INTF0 false s
  | PCINT0_vect => with_PCIF false s
  | WDT_vect =>
      with_WDIF false
        (if Z.testbit (WDTCR s) WDE
         then with_WDTCR (clear_bits (WDTCR s) (_BV WDIE)) s else s)
  end.

Definition handler (v : vector) : prog :=
  match v with
  | INT0_vect => ISR_INT0
  | PCINT0_vect => ISR_PCINT0
  | WDT_vect => ISR_WDT
  end.

Definition service (v : vector) : prog :=
  emit (Interrupt v) ;;
  update (fun s => with_SREG_I false (acknowledge v s)) ;;
  handler v ;;
  update (fun s => with_main Awake (with_SREG_I true s)).

(** Vector priority: INT0, then PCINT0, then WDT. *)
Definition pending (s : state) : option vector :=
  if negb (SREG_I s) then None
  else if int0_request s then Some INT0_vect
  else if pcint_request s then Some PCINT0_vect
  else if wdt_request s then Some WDT_vect
  else None.

(** One turn of the core: the highest pending vector if there is one;
    otherwise the main loop, when awake, runs from after [sleep_cpu()] to
    the next [sleep_cpu()]. *)
Definition cpu : prog :=
  fun s =>
    match pending s with
    | Some v => service v s
    | None =>
        match main s with
        | Awake => (loop_resume ;; loop_enter) s
        | Sleeping => skip s
        end
    end.

Inductive event :=
| WdtTimeout                 (* the watchdog period elapses *)
| Int0Level (high : bool)    (* the INT0 switch: [false] is pressed *)
| PcintLevel (high : bool)   (* the PCINT switch: [false] is pressed *)
| Cpu.

(** A watchdog period elapses.  With WDE set the watchdog resets the chip
    unless the time-out can raise its interrupt: WDIE must be set and the
    interrupt of the previous time-out must have been executed, that is WDIF
    must be clear.  With WDE clear, the time-out raises the interrupt if WDIE
    is set and is ignored otherwise. *)
Definition watchdog_timeout : prog :=
  fun s =>
    if Z.testbit (WDTCR s) WDE
    then if Z.testbit (WDTCR s) WDIE && negb (WDIF s)
         then (with_WDIF true s, [])
         else boot_from true (int0_level s) (pcint_level s)
    else if Z.testbit (WDTCR s) WDIE
         then (with_WDIF true s, [])
         else (s, []).

Definition step (e : event) : prog :=
  match e with
  | WdtTimeout => watchdog_timeout
  | Int0Level b =>
      update (fun s =>
        with_int0_level b
          (if int0_edge s (int0_level s) b then with_INTF0 true s else s))
  | PcintLevel b =>
      update (fun s =>
        with_pcint_level b
          (if xorb (pcint_level s) b
              && Z.testbit (PCMSK s) (pcint_bit_of_pin m)
           then with_PCIF true s else s))
  | Cpu => cpu
  end.

Fixpoint run (evs : list event) : prog :=
  match evs with
  | [] => skip
  | e :: rest => step e ;; run rest
  end.

(** ** Observations on traces *)

Definition is_pulse (pin : Z) (a : action) : bool :=
  match a with
  | DigitalWrite p true => p =? pin
  | _ => false
  end.

(** Pulses driven on an LED pin. *)
Definition pulses (pin : Z) (t : trace) : nat :=
  length (filter (is_pulse pin) t).

Definition WatchdogTimeoutChannel (t : trace) : nat :=
  pulses (WATCHDOG_TIMEOUT_LED_PIN m) t.
Definition SleepInterruptChannel (t : trace) : nat :=
  pulses (SLEEP_INTERRUPT_LED_PIN m) t.

Definition is_interrupt (v : vector) (a : action) : bool :=
  match a, v with
  | Interrupt INT0_vect, INT0_vect
  | Interrupt PCINT0_vect, PCINT0_vect
  | Interrupt WDT_vect, WDT_vect => true
  | _, _ => false
  end.

Definition invocations (v : vector) (t : trace) : nat :=
  length (filter (is_interrupt v) t).

Definition is_wakeup (a : action) : bool :=
  match a with Wakeup => true | _ => false end.

Definition wake_cycles (t : trace) : nat := length (filter is_wakeup t).

End Sketch.

(** ** Scenarios and predicates used in the statements *)

Definition attiny85_current : config := {| target := ATtiny85; rev := Current |}.
Definition atmega328p_current : config :=
  {| target := ATmega328P; rev := Current |}.

Definition pulse (pin : Z) : trace :=
  [DigitalWrite pin true; Delay 200; DigitalWrite pin false; Delay 200].

Definition is_delay_or_signal (a : action) : bool :=
  match a with
  | Delay _ | DigitalWrite _ _ => true
  | _ => false
  end.

(** A handler is minimal when it performs no delay and drives no pin. *)
Definition minimal (p : prog) : Prop :=
  forall s, existsb is_delay_or_signal (snd (p s)) = false.

Definition idle_period : list event := [WdtTimeout; Cpu; Cpu].

Definition idle_periods (n : nat) : list event :=
  concat (repeat idle_period n).

(** The state right after the tenth watchdog handler of an idle run. *)
Definition tenth_handler_done : state :=
  fst (run attiny85_current (idle_periods 9 ++ [WdtTimeout; Cpu])
         (fst (boot attiny85_current))).

Definition busy_afterwards : list event :=
  idle_periods 20 ++
  [PcintLevel false; Cpu; WdtTimeout; Cpu; PcintLevel true; Cpu; Cpu] ++
  idle_periods 20.

Definition no_manual_input (e : event) : bool :=
  match e with
  | WdtTimeout | Cpu => true
  | Int0Level _ | PcintLevel _ => false
  end.

(** The INT0 switch of the ATtiny85 is pressed right after the tenth
    watchdog interrupt and held (low level) until the next watchdog period
    has elapsed. *)
Definition int0_held_over_tenth_period : list event :=
  idle_periods 9 ++
  [WdtTimeout; Cpu;          (* tenth time-out; its handler: budget 0 *)
   Int0Level false; Cpu;     (* switch pressed: INT0 handler, main held up *)
   WdtTimeout; Cpu;          (* eleventh time-out pending; INT0 goes first *)
   Int0Level true; Cpu;      (* switch released: watchdog handler runs *)
   Cpu].                     (* the main loop at last tests the budget *)

Definition press_and_release_int0 : list event :=
  [Int0Level false; Cpu;     (* press: the handler, the core wakes *)
   Int0Level true; Cpu;      (* release; the main loop runs to sleep *)
   Cpu].

(** INT0 is enabled with low-level sense, interrupts are enabled and the
    input is low. *)
Definition held_low (cfg : config) (s : state) : Prop :=
  int0_sense s = LowLevel /\ int0_enabled cfg s = true /\
  SREG_I s = true /\ int0_level s = false.

Definition int0_stays_low (e : event) : bool :=
  match e with
  | Int0Level high => negb high
  | _ => true
  end.

Definition is_cpu (e : event) : bool :=
  match e with Cpu => true | _ => false end.

Definition cpu_turns (evs : list event) : nat := length (filter is_cpu evs).

(** The INT0 switch of the ATtiny85 has just been pressed. *)
Definition int0_just_pressed : state :=
  fst (step attiny85_current (Int0Level false) (fst (boot attiny85_current))).

Definition while_int0_held : list event :=
  [Cpu; WdtTimeout; Cpu; PcintLevel false; Cpu; Int0Level false; Cpu].

Definition tap_pcint_quickly : list event :=
  [PcintLevel false; Cpu;    (* press: the handler, the core wakes *)
   PcintLevel true; Cpu;     (* release while the main loop is still awake *)
   Cpu; Cpu].

(** The core sleeps with interrupts enabled, the pin-change interrupt is
    enabled for the switch input, and nothing is pending. *)
Definition asleep_and_quiet (cfg : config) (s : state) : Prop :=
  main s = Sleeping /\ SREG_I s = true /\
  pcint_enabled cfg s = true /\
  Z.testbit (PCMSK s) (pcint_bit_of_pin (target cfg)) = true /\
  PCIF s = false /\ int0_request cfg s = false /\ wdt_request s = false.

Definition pcint_transition (high : bool) : list event :=
  [PcintLevel high; Cpu; Cpu].

Definition press_and_release_pcint : list event :=
  pcint_transition false ++ pcint_transition true.

(** ** Predicates and counts for the whole-run properties *)

(** The watchdog control register as [setup] and the watchdog handler leave
    it: WDIE and WDE with the 8 s prescaler. *)
Definition WDTCR_armed : Z := Z.lor (_BV WDIE) (Z.lor (_BV WDE) WDTO_8S_bits).

(** What holds of the machine between two steps once [setup] has run: the
    watchdog is armed for interrupts or off, no reset cause is recorded,
    interrupts are enabled, the interrupt configuration is the one [setup]
    wrote, and the budget is an [int8_t] value. *)
Definition running (cfg : config) (s : state) : Prop :=
  (WDTCR s = WDTCR_armed \/ WDTCR s = 0) /\
  MCUSR s = 0 /\
  SREG_I s = true /\
  INTCTL s = INTCTL (fst (boot cfg)) /\
  INTMSK s = INTMSK (fst (boot cfg)) /\
  PCICR s = PCICR (fst (boot cfg)) /\
  PCMSK s = PCMSK (fst (boot cfg)) /\
  -128 <= watchdogTimeoutsRemaining s <= 127.

Definition is_setup_start (cfg : config) (a : action) : bool :=
  match a with
  | PinMode p true => p =? WATCHDOG_TIMEOUT_LED_PIN (target cfg)
  | _ => false
  end.

(** [setup] begins with [pinMode(WATCHDOG_TIMEOUT_LED_PIN, OUTPUT)], which is
    called nowhere else: its occurrences count the runs of [setup]. *)
Definition setup_runs (cfg : config) (t : trace) : nat :=
  length (filter (is_setup_start cfg) t).

(** Everything the sketch does from power-on: start-up, then the run. *)
Definition from_power_on (cfg : config) (evs : list event) : trace :=
  snd (boot cfg) ++ snd (run cfg evs (fst (boot cfg))).

Definition is_timeout (e : event) : bool :=
  match e with WdtTimeout => true | _ => false end.

Definition is_int0_press (e : event) : bool :=
  match e with Int0Level false => true | _ => false end.

Definition is_pcint_event (e : event) : bool :=
  match e with PcintLevel _ => true | _ => false end.

Definition occurrences (f : event -> bool) (evs : list event) : nat :=
  length (filter f evs).

(** A watchdog period elapses while the watchdog can reset the chip and the
    interrupt of the previous period has not been executed. *)
Definition overrun (e : event) (s : state) : bool :=
  is_timeout e && Z.testbit (WDTCR s) WDE && WDIF s.

Fixpoint overruns (cfg : config) (evs : list event) (s : state) : nat :=
  match evs with
  | [] => 0%nat
  | e :: rest =>
      ((if overrun e s then 1 else 0) + overruns cfg rest (fst (step cfg e s)))%nat
  end.

Definition awake_flag (s : state) : nat :=
  match main s with Awake => 1%nat | Sleeping => 0%nat end.

Definition flag (b : bool) : nat := if b then 1%nat else 0%nat.

(** What a handler logs, whatever the state it runs in. *)
Definition handler_trace (cfg : config) (v : vector) : trace :=
  match v with
  | INT0_vect =>
      match rev cfg with
      | Current =>
          pulse (WATCHDOG_TIMEOUT_LED_PIN (target cfg))
            ++ pulse (WATCHDOG_TIMEOUT_LED_PIN (target cfg))
      | Earlier => [Delay 50]
      end
  | PCINT0_vect => [Delay 50]
  | WDT_vect => pulse (WATCHDOG_TIMEOUT_LED_PIN (target cfg))
  end.

(** Pulses on the watchdog LED per INT0 handler run. *)
Definition int0_led_pulses (cfg : config) : nat :=
  match rev cfg with Current => 2%nat | Earlier => 0%nat end.

Definition handler_runs (t : trace) : nat :=
  (invocations INT0_vect t + invocations PCINT0_vect t
   + invocations WDT_vect t)%nat.

(** The INT0 sense each build selects in [configInt0]. *)
Definition configured_sense (cfg : config) : sense :=
  match target cfg, rev cfg with
  | ATtiny85, Current => LowLevel
  | _, _ => FallingEdge
  end.

(** The INT0 switch bounces on a press: three falling edges in a row. *)
Definition bouncing_press : list event :=
  [Int0Level false; Int0Level true; Int0Level false; Cpu;
   Int0Level true; Int0Level false; Cpu; Cpu; Int0Level true; Cpu; Cpu].

(** Time spent in [delay], in milliseconds. *)
Fixpoint blocked_ms (t : trace) : Z :=
  match t with
  | [] => 0
  | Delay ms :: rest => ms + blocked_ms rest
  | _ :: rest => blocked_ms rest
  end.

(** The INT0 sense after [configInt0], as a function of the ISC bits found:
    the earlier ATtiny85 build sets ISC01 and leaves ISC00 as it is. *)
Definition sense_after_configInt0 (cfg : config) (before : state) : sense :=
  match target cfg, rev cfg with
  | ATmega328P, _ => FallingEdge
  | ATtiny85, Current => LowLevel
  | ATtiny85, Earlier =>
      if Z.testbit (INTCTL before) ISC00 then RisingEdge else FallingEdge
  end.

(** The core sleeps with the watchdog armed and nothing pending. *)
Definition asleep_armed (cfg : config) (s : state) : Prop :=
  running cfg s /\ WDTCR s = WDTCR_armed /\ main s = Sleeping /\
  WDIF s = false /\ int0_request cfg s = false /\ pcint_request cfg s = false.

(** Idle watchdog periods until the main loop finds the budget at 0: the
    budget itself when it is positive, otherwise a full turn of the
    [int8_t] counter more. *)
Definition periods_until_off (budget : Z) : nat :=
  Z.to_nat (if 0 <? budget then budget else budget + 256).

Definition idle_cycle_trace (cfg : config) : trace :=
  Interrupt WDT_vect :: pulse (WATCHDOG_TIMEOUT_LED_PIN (target cfg))
    ++ Wakeup :: pulse (SLEEP_INTERRUPT_LED_PIN (target cfg)).

(** The state the run of [int0_held_over_tenth_period] ends in: the budget
    has been stepped over 0. *)
Definition after_skipped_zero : state :=
  fst (run attiny85_current int0_held_over_tenth_period
         (fst (boot attiny85_current))).

Definition is_release (pin : Z) (a : action) : bool :=
  match a with
  | DigitalWrite p false => p =? pin
  | _ => false
  end.

(** Times a pin is driven low. *)
Definition releases (pin : Z) (t : trace) : nat :=
  length (filter (is_release pin) t).

(** Milliseconds the INT0 handler blocks for. *)
Definition int0_blocking_ms (cfg : config) : Z :=
  match rev cfg with Current => 800 | Earlier => 50 end.

(** The budget at the bottom of the [int8_t] range: 127 idle periods after
    it has been stepped over 0. *)
Definition int8_minimum_reached : state :=
  fst (run attiny85_current (idle_periods 127) after_skipped_zero).

(** One watchdog period of idle operation with any number of core turns:
    the time-out, the two turns that serve it (handler, main loop) and
    [extra] more turns. *)
Definition idle_period_with (extra : nat) : list event :=
  WdtTimeout :: repeat Cpu (2 + extra).

Definition idle_schedule (extras : list nat) : list event :=
  concat (map idle_period_with extras).

(** The INT0 switch stays pressed while two watchdog periods elapse. *)
Definition held_over_two_periods : list event :=
  [Cpu; WdtTimeout; Cpu; Cpu; WdtTimeout; Cpu].

(** The core sleeps with nothing pending, the watchdog armed or off. *)
Definition idling (cfg : config) (s : state) : Prop :=
  running cfg s /\ main s = Sleeping /\ WDIF s = false /\
  int0_request cfg s = false /\ pcint_request cfg s = false.

(** Core turns per watchdog period, beyond the two that serve it, in a
    sample idle run of ten periods. *)
Definition sample_turns : list nat := [0; 3; 1; 0; 5; 2; 0; 1; 4; 0]%nat.

Definition pin_flag (p pin : Z) : nat := if p =? pin then 1%nat else 0%nat.

(** Pulses that handlers and main loop drive on a pin, by their ledger: the
    watchdog LED once per watchdog handler run and [int0_led_pulses] times
    per INT0 handler run, the sleep-interrupt LED once per wake-up. *)
Definition signalled (cfg : config) (pin : Z) (t : trace) : nat :=
  ((invocations WDT_vect t + int0_led_pulses cfg * invocations INT0_vect t)
     * pin_flag (WATCHDOG_TIMEOUT_LED_PIN (target cfg)) pin
   + wake_cycles t * pin_flag (SLEEP_INTERRUPT_LED_PIN (target cfg)) pin)%nat.

(** The pins a trace drives high, and those it drives low, in order. *)
Fixpoint driven (level : bool) (t : trace) : list Z :=
  match t with
  | [] => []
  | DigitalWrite p high :: rest =>
      if Bool.eqb high level then p :: driven level rest else driven level rest
  | _ :: rest => driven level rest
  end.

Fixpoint count_pin (pin : Z) (pins : list Z) : nat :=
  match pins with
  | [] => 0%nat
  | p :: rest => (pin_flag p pin + count_pin pin rest)%nat
  end.

(** * Properties *)

Arguments Z.testbit : simpl never.
Arguments Z.ldiff : simpl never.
Arguments Z.lor : simpl never.
Arguments Z.shiftl : simpl never.

(** ** Bits *)

Lemma ldiff_bit_clear (r b : Z) :
  0 <= b -> Z.testbit (clear_bits r (_BV b)) b = false.
Proof.
  intros Hb. unfold clear_bits, _BV.
  rewrite Z.ldiff_spec, Z.shiftl_1_l, Z.pow2_bits_true by assumption.
  apply andb_false_r.
Qed.

Lemma ldiff_twice (r k : Z) :
  clear_bits (clear_bits r k) k = clear_bits r k.
Proof.
  unfold clear_bits. apply Z.bits_inj'. intros n _.
  rewrite !Z.ldiff_spec.
  destruct (Z.testbit r n), (Z.testbit k n); reflexivity.
Qed.

Lemma lor_bit_set (r b : Z) :
  0 <= b -> Z.testbit (set_bits r (_BV b)) b = true.
Proof.
  intros Hb. unfold set_bits, _BV.
  rewrite Z.lor_spec, Z.shiftl_1_l, Z.pow2_bits_true by assumption.
  apply orb_true_r.
Qed.

Lemma int8_in_range (z : Z) : -128 <= z <= 127 -> int8 z = z.
Proof.
  intros H. unfold int8. rewrite Z.mod_small by lia. lia.
Qed.

(** ** The watchdog switch-off *)

Lemma disable_watchdog_state (s : state) :
  fst (disable_watchdog s) =
  with_WDTCR 0 (with_MCUSR (clear_bits (MCUSR s) (_BV WDRF)) s).
Proof.
  unfold disable_watchdog, clear_WDRF, wdt_disable, store_WDTCR, seq, update.
  cbn [fst with_MCUSR MCUSR].
  rewrite ldiff_bit_clear by (unfold WDRF; lia). reflexivity.
Qed.

Lemma disable_watchdog_silent (s : state) : snd (disable_watchdog s) = [].
Proof. reflexivity. Qed.

(** C6.  [disable_watchdog] is idempotent: run on the state it has produced,
    it changes nothing and performs no I/O; and inside one call the
    reset-cause flag WDRF is already clear in the state that [wdt_disable]
    runs on, so that the watchdog is off afterwards whatever MCUSR held. *)
Theorem disable_watchdog_idempotent (s : state) :
  let cleared := fst (clear_WDRF s) in
  let off := fst (disable_watchdog s) in
  disable_watchdog off = (off, []) /\
  off = fst (wdt_disable cleared) /\
  Z.testbit (MCUSR cleared) WDRF = false /\
  WDTCR cleared = WDTCR s /\
  Z.testbit (WDTCR off) WDE = false /\
  Z.testbit (WDTCR off) WDIE = false.
Proof.
  cbv zeta.
  assert (Hclr : Z.testbit (clear_bits (MCUSR s) (_BV WDRF)) WDRF = false)
    by (apply ldiff_bit_clear; unfold WDRF; lia).
  repeat split.
  - rewrite (surjective_pairing (disable_watchdog _)).
    rewrite disable_watchdog_silent, !disable_watchdog_state.
    f_equal. destruct s; unfold with_WDTCR, with_MCUSR; cbn.
    rewrite ldiff_twice. reflexivity.
  - exact Hclr.
  - rewrite disable_watchdog_state. reflexivity.
  - rewrite disable_watchdog_state. reflexivity.
Qed.

(** Why the order matters: after a watchdog reset WDRF is set, and switching
    the watchdog off before clearing it leaves WDE on. *)
Lemma wdt_disable_before_clear_WDRF_fails :
  let s := reset_state {| target := ATtiny85; rev := Current |} true true true in
  Z.testbit (WDTCR (fst ((wdt_disable ;; clear_WDRF) s))) WDE = true /\
  Z.testbit (WDTCR (fst (disable_watchdog s))) WDE = false.
Proof. split; reflexivity. Qed.

(** ** The handlers *)

Lemma flashLED_once (pin : Z) (s : state) : flashLED pin 1 s = (s, pulse pin).
Proof. reflexivity. Qed.

Lemma flashLED_twice (pin : Z) (s : state) :
  flashLED pin 2 s = (s, pulse pin ++ pulse pin).
Proof. reflexivity. Qed.

Lemma rearm_WDIE_sets (s : state) :
  Z.testbit (WDTCR (fst (rearm_WDIE s))) WDIE = true.
Proof.
  unfold rearm_WDIE, store_WDTCR, update. cbn [fst with_WDTCR WDTCR].
  destruct (Z.testbit (MCUSR s) WDRF).
  - rewrite Z.lor_spec, lor_bit_set by (unfold WDIE; lia). reflexivity.
  - apply lor_bit_set. unfold WDIE; lia.
Qed.

Lemma ISR_WDT_run (cfg : config) (s : state) :
  ISR_WDT cfg s =
  (fst (rearm_WDIE (with_counter (int8 (watchdogTimeoutsRemaining s - 1)) s)),
   pulse (WATCHDOG_TIMEOUT_LED_PIN (target cfg))).
Proof. reflexivity. Qed.

Lemma loop_resume_trace (cfg : config) (s : state) :
  snd (loop_resume cfg s) =
  Wakeup :: pulse (SLEEP_INTERRUPT_LED_PIN (target cfg)).
Proof.
  unfold loop_resume, seq, emit, sleep_disable, update.
  rewrite flashLED_once. cbn [with_SE watchdogTimeoutsRemaining].
  destruct (watchdogTimeoutsRemaining s =? 0); reflexivity.
Qed.

Lemma loop_resume_WDTCR (cfg : config) (s : state) :
  WDTCR (fst (loop_resume cfg s)) =
  if watchdogTimeoutsRemaining s =? 0 then 0 else WDTCR s.
Proof.
  unfold loop_resume, seq, emit, sleep_disable, update.
  rewrite flashLED_once. cbn [with_SE watchdogTimeoutsRemaining].
  destruct (watchdogTimeoutsRemaining s =? 0).
  - rewrite (surjective_pairing (disable_watchdog _)). cbn [fst].
    rewrite disable_watchdog_state. reflexivity.
  - reflexivity.
Qed.

Lemma loop_enter_run (s : state) :
  loop_enter s = (with_main Sleeping (with_SREG_I true (with_SE true s)), []).
Proof. reflexivity. Qed.

Lemma seq_fst (p q : prog) (s : state) :
  fst ((p ;; q) s) = fst (q (fst (p s))).
Proof.
  unfold seq. destruct (p s) as [s1 t1]. cbn [fst].
  destruct (q s1); reflexivity.
Qed.

Lemma seq_snd (p q : prog) (s : state) :
  snd ((p ;; q) s) = snd (p s) ++ snd (q (fst (p s))).
Proof.
  unfold seq. destruct (p s) as [s1 t1]. cbn [fst snd].
  destruct (q s1); reflexivity.
Qed.

(** C2, as stated, fails at the bottom of the [int8_t] range, which the
    budget reaches 127 idle periods after it has been stepped over 0: there
    the handler leaves 127, not one less. *)
Lemma ISR_WDT_wraps_at_int8_minimum :
  watchdogTimeoutsRemaining int8_minimum_reached = -128 /\
  watchdogTimeoutsRemaining
    (fst (service attiny85_current WDT_vect int8_minimum_reached)) = 127 /\
  watchdogTimeoutsRemaining
    (fst (service attiny85_current WDT_vect int8_minimum_reached))
    <> watchdogTimeoutsRemaining int8_minimum_reached - 1.
Proof.
  assert (Hmin : watchdogTimeoutsRemaining int8_minimum_reached = -128)
    by (vm_compute; reflexivity).
  assert (Hwrap : watchdogTimeoutsRemaining
                    (fst (service attiny85_current WDT_vect
                            int8_minimum_reached)) = 127)
    by (vm_compute; reflexivity).
  split; [exact Hmin|]. split; [exact Hwrap|].
  rewrite Hwrap, Hmin. discriminate.
Qed.

(** C2, amended.  Taking the watchdog vector decrements the [int8_t] budget
    by one with wrap-around: it leaves one less for every value above -128,
    and 127 for -128.  WDIE is set again by the handler itself: it is set
    when the handler returns even though the core cleared it on entry, while
    the main loop never sets it. *)
Theorem ISR_WDT_decrements_int8_and_rearms (cfg : config) (s : state) :
  -128 <= watchdogTimeoutsRemaining s <= 127 ->
  let s' := fst (service cfg WDT_vect s) in
  watchdogTimeoutsRemaining s' =
    (if watchdogTimeoutsRemaining s =? -128
     then 127 else watchdogTimeoutsRemaining s - 1) /\
  Z.testbit (WDTCR s') WDIE = true /\
  (forall h, Z.testbit (WDTCR (fst (ISR_WDT cfg h))) WDIE = true) /\
  (forall h, Z.testbit (WDTCR h) WDIE = false ->
     Z.testbit (WDTCR (fst ((loop_resume cfg ;; loop_enter) h))) WDIE = false).
Proof.
  intros Hrange. cbv zeta.
  assert (Hisr : forall h, Z.testbit (WDTCR (fst (ISR_WDT cfg h))) WDIE = true).
  { intros h. rewrite ISR_WDT_run. cbn [fst]. apply rearm_WDIE_sets. }
  repeat split.
  - unfold service. rewrite !seq_fst. cbn [handler].
    unfold update at 1. cbn [fst with_main with_SREG_I watchdogTimeoutsRemaining].
    rewrite ISR_WDT_run. cbn [fst].
    unfold rearm_WDIE, store_WDTCR, update, emit.
    cbn [fst with_WDTCR with_counter with_SREG_I watchdogTimeoutsRemaining].
    assert (Hc : watchdogTimeoutsRemaining (acknowledge WDT_vect s)
                 = watchdogTimeoutsRemaining s).
    { unfold acknowledge. destruct (Z.testbit (WDTCR s) WDE); reflexivity. }
    rewrite Hc.
    destruct (Z.eqb_spec (watchdogTimeoutsRemaining s) (-128)) as [He|Hne].
    + rewrite He. reflexivity.
    + apply int8_in_range. lia.
  - unfold service. rewrite !seq_fst. cbn [handler].
    unfold update at 1. cbn [fst with_main with_SREG_I WDTCR].
    apply Hisr.
  - exact Hisr.
  - intros h Hh. rewrite seq_fst, loop_enter_run. cbn [fst].
    cbn [with_main with_SREG_I with_SE WDTCR].
    rewrite loop_resume_WDTCR.
    destruct (watchdogTimeoutsRemaining h =? 0); [reflexivity | exact Hh].
Qed.

Lemma ISR_WDT_decrements_int8_and_rearms_witness :
  -128 <= watchdogTimeoutsRemaining int8_minimum_reached <= 127 /\
  watchdogTimeoutsRemaining
    (fst (service attiny85_current WDT_vect int8_minimum_reached)) = 127 /\
  Z.testbit
    (WDTCR (fst (service attiny85_current WDT_vect int8_minimum_reached)))
    WDIE = true.
Proof.
  assert (Hrange : -128 <= watchdogTimeoutsRemaining int8_minimum_reached <= 127)
    by (vm_compute; split; discriminate).
  split; [exact Hrange|].
  destruct (ISR_WDT_decrements_int8_and_rearms attiny85_current
              int8_minimum_reached Hrange) as (Hdec & Hie & _).
  split; [rewrite Hdec; vm_compute; reflexivity | exact Hie].
Defined.

(** ** What the handlers do besides state writes *)

(** C7, as stated, fails: none of the three handlers is minimal. *)
Lemma handlers_not_minimal :
  ~ minimal (handler attiny85_current WDT_vect) /\
  ~ minimal (handler attiny85_current INT0_vect) /\
  ~ minimal (handler attiny85_current PCINT0_vect).
Proof.
  repeat split; intros H;
    specialize (H (fst (boot attiny85_current))); discriminate H.
Qed.

(** C7, amended.  Every handler is a fixed, bounded piece of work, with
    blocking delays: the watchdog handler decrements the counter, drives one
    200 ms pulse on the watchdog LED and sets WDIE; the INT0 handler drives
    two such pulses on the watchdog LED (a 50 ms delay in the earlier
    revision) and writes no state; the pin-change handler waits 50 ms and
    writes no state. *)
Theorem handlers_bounded_work (cfg : config) (s : state) :
  let led := WATCHDOG_TIMEOUT_LED_PIN (target cfg) in
  snd (handler cfg WDT_vect s) = pulse led /\
  watchdogTimeoutsRemaining (fst (handler cfg WDT_vect s))
    = int8 (watchdogTimeoutsRemaining s - 1) /\
  Z.testbit (WDTCR (fst (handler cfg WDT_vect s))) WDIE = true /\
  handler cfg INT0_vect s =
    (s, match rev cfg with
        | Current => pulse led ++ pulse led
        | Earlier => [Delay 50]
        end) /\
  handler cfg PCINT0_vect s = (s, [Delay 50]).
Proof.
  cbv zeta. cbn [handler]. repeat split.
  - rewrite ISR_WDT_run. cbn [fst]. apply rearm_WDIE_sets.
  - unfold ISR_INT0. destruct (rev cfg); reflexivity.
Qed.

(** ** Signals per wake cycle *)

(** C4, as stated, fails: a wake cycle caused by the watchdog shows two
    signals, one on each channel. *)
Lemma watchdog_cycle_two_signals :
  let cfg := attiny85_current in
  let t := snd (run cfg idle_period (fst (boot cfg))) in
  wake_cycles t = 1%nat /\
  WatchdogTimeoutChannel cfg t = 1%nat /\
  SleepInterruptChannel cfg t = 1%nat /\
  (WatchdogTimeoutChannel cfg t + SleepInterruptChannel cfg t <> 1)%nat.
Proof. cbv zeta. repeat split. vm_compute. discriminate. Qed.

(** C4, amended.  In every wake cycle the main loop emits exactly one signal,
    a single pulse on the sleep-interrupt LED, whatever the state the
    handler left: the program keeps no record of the interrupt that woke it.
    The watchdog LED is driven by the handlers alone. *)
Theorem loop_signals_once_per_wake (cfg : config) (s : state) :
  let t := snd ((loop_resume cfg ;; loop_enter) s) in
  t = Wakeup :: pulse (SLEEP_INTERRUPT_LED_PIN (target cfg)) /\
  wake_cycles t = 1%nat /\
  SleepInterruptChannel cfg t = 1%nat /\
  WatchdogTimeoutChannel cfg t = 0%nat.
Proof.
  cbv zeta. rewrite seq_snd, loop_resume_trace, loop_enter_run.
  cbn [snd]. rewrite app_nil_r.
  destruct cfg as [[|] r]; repeat split.
Qed.

(** ** Once switched off, the watchdog stays off *)

Lemma invocations_app (v : vector) (t u : trace) :
  invocations v (t ++ u) = (invocations v t + invocations v u)%nat.
Proof. unfold invocations. rewrite filter_app, length_app. reflexivity. Qed.

Lemma pulses_app (pin : Z) (t u : trace) :
  pulses pin (t ++ u) = (pulses pin t + pulses pin u)%nat.
Proof. unfold pulses. rewrite filter_app, length_app. reflexivity. Qed.

Lemma wake_cycles_app (t u : trace) :
  wake_cycles (t ++ u) = (wake_cycles t + wake_cycles u)%nat.
Proof. unfold wake_cycles. rewrite filter_app, length_app. reflexivity. Qed.

Lemma run_cons (cfg : config) (e : event) (evs : list event) (s : state) :
  run cfg (e :: evs) s =
  (fst (run cfg evs (fst (step cfg e s))),
   snd (step cfg e s) ++ snd (run cfg evs (fst (step cfg e s)))).
Proof.
  cbn [run]. unfold seq. destruct (step cfg e s) as [s1 t1].
  cbn [fst snd]. destruct (run cfg evs s1); reflexivity.
Qed.

Lemma run_app (cfg : config) (evs1 evs2 : list event) (s : state) :
  run cfg (evs1 ++ evs2) s =
  (fst (run cfg evs2 (fst (run cfg evs1 s))),
   snd (run cfg evs1 s) ++ snd (run cfg evs2 (fst (run cfg evs1 s)))).
Proof.
  revert s. induction evs1 as [|e evs1 IH]; intros s.
  - cbn. destruct (run cfg evs2 s); reflexivity.
  - rewrite <- app_comm_cons, !run_cons, IH. cbn [fst snd].
    rewrite app_assoc. reflexivity.
Qed.

Lemma service_fst (cfg : config) (v : vector) (s : state) :
  fst (service cfg v s) =
  with_main Awake
    (with_SREG_I true
       (fst (handler cfg v (with_SREG_I false (acknowledge v s))))).
Proof. unfold service. rewrite !seq_fst. reflexivity. Qed.

Lemma service_snd (cfg : config) (v : vector) (s : state) :
  snd (service cfg v s) =
  Interrupt v :: snd (handler cfg v (with_SREG_I false (acknowledge v s))).
Proof.
  unfold service. rewrite !seq_snd. cbn [emit update snd fst app].
  rewrite app_nil_r. reflexivity.
Qed.

Lemma ISR_INT0_fst (cfg : config) (s : state) : fst (ISR_INT0 cfg s) = s.
Proof. unfold ISR_INT0. destruct (rev cfg); reflexivity. Qed.

Lemma pending_not_wdt (cfg : config) (s : state) :
  WDTCR s = 0 -> pending cfg s <> Some WDT_vect.
Proof.
  intros H. unfold pending, wdt_request. rewrite H, Z.testbit_0_l.
  destruct (negb (SREG_I s)), (int0_request cfg s), (pcint_request cfg s);
    discriminate.
Qed.

Lemma pending_not_int0 (cfg : config) (s : state) :
  int0_request cfg s = false -> pending cfg s <> Some INT0_vect.
Proof.
  intros H. unfold pending. rewrite H.
  destruct (negb (SREG_I s)), (pcint_request cfg s), (wdt_request s);
    discriminate.
Qed.

Lemma main_turn_WDTCR (cfg : config) (s : state) :
  WDTCR s = 0 -> WDTCR (fst ((loop_resume cfg ;; loop_enter) s)) = 0.
Proof.
  intros H. rewrite seq_fst, loop_enter_run. cbn [fst].
  cbn [with_main with_SREG_I with_SE WDTCR]. rewrite loop_resume_WDTCR, H.
  destruct (watchdogTimeoutsRemaining s =? 0); reflexivity.
Qed.

Lemma main_turn_trace (cfg : config) (s : state) :
  snd ((loop_resume cfg ;; loop_enter) s) =
  Wakeup :: pulse (SLEEP_INTERRUPT_LED_PIN (target cfg)).
Proof.
  rewrite seq_snd, loop_resume_trace, loop_enter_run. cbn [snd].
  apply app_nil_r.
Qed.

(** One step from a state with the watchdog off: it is still off, the
    watchdog vector is not taken, and the watchdog LED is driven only if the
    INT0 handler ran. *)
Lemma step_watchdog_off (cfg : config) (e : event) (s : state) :
  WDTCR s = 0 ->
  WDTCR (fst (step cfg e s)) = 0 /\
  invocations WDT_vect (snd (step cfg e s)) = 0%nat /\
  (invocations INT0_vect (snd (step cfg e s)) = 0%nat ->
   WatchdogTimeoutChannel cfg (snd (step cfg e s)) = 0%nat).
Proof.
  intros Hoff. destruct e; cbn [step].
  - unfold watchdog_timeout. rewrite Hoff, !Z.testbit_0_l. cbn [fst snd].
    repeat split. exact Hoff.
  - unfold update. cbn [fst snd]. repeat split.
    destruct (int0_edge s (int0_level s) high); exact Hoff.
  - unfold update. cbn [fst snd]. repeat split.
    destruct (xorb (pcint_level s) high
              && Z.testbit (PCMSK s) (pcint_bit_of_pin (target cfg)));
      exact Hoff.
  - unfold cpu. pose proof (pending_not_wdt cfg s Hoff) as Hp.
    destruct (pending cfg s) as [[| |]|].
    + rewrite service_fst, service_snd. cbn [handler acknowledge].
      rewrite ISR_INT0_fst. split; [exact Hoff|]. split.
      * unfold ISR_INT0. destruct cfg as [[|] [|]]; reflexivity.
      * intros H. discriminate H.
    + rewrite service_fst, service_snd. cbn [handler acknowledge].
      split; [exact Hoff|]. split; [reflexivity|].
      intros _. destruct cfg as [[|] r]; reflexivity.
    + congruence.
    + destruct (main s).
      * cbn [skip fst snd]. split; [exact Hoff|]. split; reflexivity.
      * rewrite main_turn_trace. split; [apply main_turn_WDTCR; exact Hoff|].
        split; [reflexivity|]. intros _. destruct cfg as [[|] r]; reflexivity.
Qed.

Lemma watchdog_off_forever (cfg : config) (evs : list event) (s : state) :
  WDTCR s = 0 ->
  WDTCR (fst (run cfg evs s)) = 0 /\
  invocations WDT_vect (snd (run cfg evs s)) = 0%nat /\
  (invocations INT0_vect (snd (run cfg evs s)) = 0%nat ->
   WatchdogTimeoutChannel cfg (snd (run cfg evs s)) = 0%nat).
Proof.
  revert s. induction evs as [|e evs IH]; intros s Hoff.
  - cbn. repeat split. exact Hoff.
  - rewrite run_cons. cbn [fst snd].
    destruct (step_watchdog_off cfg e s Hoff) as (H1 & H2 & H3).
    destruct (IH _ H1) as (I1 & I2 & I3).
    split; [exact I1|]. split.
    + rewrite invocations_app, H2, I2. reflexivity.
    + rewrite invocations_app. intros H.
      unfold WatchdogTimeoutChannel in *. rewrite pulses_app.
      rewrite H3, I3 by lia. reflexivity.
Qed.

(** When the main loop runs with the budget at 0, the watchdog is switched
    off and stays off: whatever events follow, and however many watchdog
    periods elapse, the watchdog vector is never taken again, and the
    watchdog LED is not driven unless the INT0 handler drives it. *)
Theorem budget_exhaustion_is_terminal
    (cfg : config) (s : state) (evs : list event) :
  watchdogTimeoutsRemaining s = 0 ->
  let exhausted := fst ((loop_resume cfg ;; loop_enter) s) in
  let after := run cfg evs exhausted in
  Z.testbit (WDTCR exhausted) WDE = false /\
  Z.testbit (WDTCR exhausted) WDIE = false /\
  WDTCR (fst after) = WDTCR exhausted /\
  invocations WDT_vect (snd after) = 0%nat /\
  (invocations INT0_vect (snd after) = 0%nat ->
   WatchdogTimeoutChannel cfg (snd after) = 0%nat).
Proof.
  intros Hzero. cbv zeta.
  assert (Hoff : WDTCR (fst ((loop_resume cfg ;; loop_enter) s)) = 0).
  { rewrite seq_fst, loop_enter_run. cbn [fst].
    cbn [with_main with_SREG_I with_SE WDTCR].
    rewrite loop_resume_WDTCR, Hzero. reflexivity. }
  destruct (watchdog_off_forever cfg evs _ Hoff) as (H1 & H2 & H3).
  rewrite Hoff, !Z.testbit_0_l, H1. repeat split; assumption.
Qed.

Lemma budget_exhaustion_is_terminal_witness :
  watchdogTimeoutsRemaining tenth_handler_done = 0 /\
  invocations WDT_vect
    (snd (run attiny85_current busy_afterwards
            (fst ((loop_resume attiny85_current ;; loop_enter)
                    tenth_handler_done)))) = 0%nat.
Proof.
  assert (Hzero : watchdogTimeoutsRemaining tenth_handler_done = 0)
    by reflexivity.
  split; [exact Hzero|].
  destruct (budget_exhaustion_is_terminal attiny85_current tenth_handler_done
              busy_afterwards Hzero) as (_ & _ & _ & Hnever & _).
  exact Hnever.
Defined.

(** C1, evaluated on the code: the budget reaches 0 in the tenth handler and
    the main loop iteration that follows runs to its end, yet the watchdog
    vector keeps being taken, once per period, because the budget was
    stepped over 0 before the loop tested it. *)
Theorem periodic_wakes_after_exhaustion :
  let cfg := attiny85_current in
  let r := run cfg int0_held_over_tenth_period (fst (boot cfg)) in
  watchdogTimeoutsRemaining tenth_handler_done = 0 /\
  fst r = fst (run cfg
                 [Int0Level false; Cpu; WdtTimeout; Cpu; Int0Level true; Cpu;
                  Cpu] tenth_handler_done) /\
  wake_cycles (snd r) = 10%nat /\
  main (fst r) = Sleeping /\
  invocations WDT_vect (snd (run cfg (idle_periods 5) (fst r))) = 5%nat /\
  WatchdogTimeoutChannel cfg (snd (run cfg (idle_periods 5) (fst r))) = 5%nat.
Proof.
  cbv zeta.
  repeat match goal with |- _ /\ _ => split end; vm_compute; reflexivity.
Qed.

(** ** Idle operation *)

Lemma main_turn_int0_request (cfg : config) (s : state) :
  int0_request cfg (fst ((loop_resume cfg ;; loop_enter) s)) =
  int0_request cfg s.
Proof.
  rewrite seq_fst, loop_enter_run. cbn [fst].
  unfold loop_resume. rewrite !seq_fst.
  unfold emit, sleep_disable, update. cbn [fst]. rewrite flashLED_once.
  cbn [fst with_SE watchdogTimeoutsRemaining].
  destruct (watchdogTimeoutsRemaining s =? 0).
  - rewrite disable_watchdog_state. reflexivity.
  - reflexivity.
Qed.

Lemma step_idle (cfg : config) (e : event) (s : state) :
  no_manual_input e = true ->
  WDTCR s = 0 ->
  int0_request cfg s = false ->
  int0_request cfg (fst (step cfg e s)) = false /\
  invocations INT0_vect (snd (step cfg e s)) = 0%nat.
Proof.
  intros He Hoff Hreq. destruct e; try discriminate He; cbn [step].
  - unfold watchdog_timeout. rewrite Hoff, !Z.testbit_0_l.
    split; [exact Hreq | reflexivity].
  - unfold cpu. pose proof (pending_not_wdt cfg s Hoff) as Hw.
    pose proof (pending_not_int0 cfg s Hreq) as Hi.
    destruct (pending cfg s) as [[| |]|]; try congruence.
    + rewrite service_fst, service_snd. cbn [handler acknowledge].
      split; [exact Hreq | reflexivity].
    + destruct (main s).
      * split; [exact Hreq | reflexivity].
      * rewrite main_turn_int0_request, main_turn_trace.
        split; [exact Hreq | reflexivity].
Qed.

Lemma idle_no_int0 (cfg : config) (evs : list event) (s : state) :
  forallb no_manual_input evs = true ->
  WDTCR s = 0 ->
  int0_request cfg s = false ->
  invocations INT0_vect (snd (run cfg evs s)) = 0%nat.
Proof.
  revert s. induction evs as [|e evs IH]; intros s Hevs Hoff Hreq.
  - reflexivity.
  - cbn [forallb] in Hevs. apply andb_true_iff in Hevs as [He Hevs].
    rewrite run_cons. cbn [snd]. rewrite invocations_app.
    destruct (step_idle cfg e s He Hoff Hreq) as [H1 H2].
    destruct (step_watchdog_off cfg e s Hoff) as [H3 _].
    rewrite H2, (IH _ Hevs H3 H1). reflexivity.
Qed.


(** ** The exhausted budget can be stepped over *)

(** C3, evaluated on the code: the budget passes 0 before the main loop
    tests it, the test [== 0] then fails at -1, and the watchdog stays
    armed. *)
Theorem budget_underflow_reachable :
  let cfg := attiny85_current in
  let r := run cfg int0_held_over_tenth_period (fst (boot cfg)) in
  watchdogTimeoutsRemaining (fst r) = -1 /\
  main (fst r) = Sleeping /\
  Z.testbit (WDTCR (fst r)) WDE = true /\
  Z.testbit (WDTCR (fst r)) WDIE = true /\
  invocations WDT_vect (snd r) = 11%nat /\
  invocations WDT_vect
    (snd (run cfg (idle_periods 3) (fst r))) = 3%nat.
Proof. cbv zeta. repeat split; vm_compute; reflexivity. Qed.

(** ** One press of the INT0 switch, falling-edge sense *)

(** C8, evaluated on the code: on the ATmega328P the press is taken once and
    the main loop signals once, but the INT0 handler of the current sketch
    drives two pulses on the watchdog LED. *)
Theorem edge_press_drives_watchdog_led :
  let cfg := atmega328p_current in
  let r := run cfg press_and_release_int0 (fst (boot cfg)) in
  int0_sense (fst (boot cfg)) = FallingEdge /\
  invocations INT0_vect (snd r) = 1%nat /\
  wake_cycles (snd r) = 1%nat /\
  SleepInterruptChannel cfg (snd r) = 1%nat /\
  WatchdogTimeoutChannel cfg (snd r) = 2%nat /\
  invocations WDT_vect (snd r) = 0%nat.
Proof. cbv zeta. repeat split; vm_compute; reflexivity. Qed.

(** The earlier revision, whose INT0 handler only waits, shows no pulse on
    the watchdog LED for the same input, on either device. *)
Lemma edge_press_earlier_revision (m : mcu) :
  let cfg := {| target := m; rev := Earlier |} in
  let r := run cfg press_and_release_int0 (fst (boot cfg)) in
  int0_sense (fst (boot cfg)) = FallingEdge /\
  invocations INT0_vect (snd r) = 1%nat /\
  SleepInterruptChannel cfg (snd r) = 1%nat /\
  WatchdogTimeoutChannel cfg (snd r) = 0%nat.
Proof. destruct m; cbv zeta; repeat split; vm_compute; reflexivity. Qed.

(** ** The INT0 switch held low, low-level sense *)

Lemma held_low_pending (cfg : config) (s : state) :
  held_low cfg s -> pending cfg s = Some INT0_vect.
Proof.
  intros (Hs & He & Hi & Hl). unfold pending, int0_request.
  rewrite Hi, He, Hs, Hl. reflexivity.
Qed.

Lemma held_low_step (e : event) (s : state) :
  held_low attiny85_current s ->
  int0_stays_low e = true ->
  held_low attiny85_current (fst (step attiny85_current e s)) /\
  wake_cycles (snd (step attiny85_current e s)) = 0%nat /\
  invocations INT0_vect (snd (step attiny85_current e s)) =
    (if is_cpu e then 1%nat else 0%nat).
Proof.
  intros Hheld He.
  pose proof Hheld as (Hs & Hen & Hi & Hl).
  destruct e as [|high|high|]; cbn [step is_cpu].
  - unfold watchdog_timeout.
    destruct (Z.testbit (WDTCR s) WDE), (Z.testbit (WDTCR s) WDIE), (WDIF s);
      cbn [andb negb fst snd];
      try (repeat split; assumption);
      rewrite Hl; destruct (pcint_level s); repeat split.
  - cbn in He. destruct high; [discriminate|].
    unfold update, int0_edge. rewrite Hs. cbn [fst snd].
    repeat split; assumption.
  - unfold update. cbn [fst snd].
    destruct (xorb (pcint_level s) high
              && Z.testbit (PCMSK s) (pcint_bit_of_pin (target attiny85_current)));
      repeat split; assumption.
  - unfold cpu. rewrite (held_low_pending _ _ Hheld).
    rewrite service_fst, service_snd. cbn [handler acknowledge].
    rewrite ISR_INT0_fst. repeat split; assumption.
Qed.

Lemma held_low_run (evs : list event) (s : state) :
  held_low attiny85_current s ->
  forallb int0_stays_low evs = true ->
  held_low attiny85_current (fst (run attiny85_current evs s)) /\
  wake_cycles (snd (run attiny85_current evs s)) = 0%nat /\
  invocations INT0_vect (snd (run attiny85_current evs s)) = cpu_turns evs.
Proof.
  revert s. induction evs as [|e evs IH]; intros s Hheld Hevs.
  - repeat split; apply Hheld.
  - cbn [forallb] in Hevs. apply andb_true_iff in Hevs as [He Hevs].
    destruct (held_low_step e s Hheld He) as (H1 & H2 & H3).
    destruct (IH _ H1 Hevs) as (I1 & I2 & I3).
    rewrite run_cons. cbn [fst snd].
    rewrite wake_cycles_app, invocations_app, H2, H3, I2, I3.
    split; [exact I1|]. split; [reflexivity|].
    unfold cpu_turns. cbn [filter]. destruct (is_cpu e); reflexivity.
Qed.

Lemma release_resumes_main (s : state) :
  held_low attiny85_current s ->
  main s = Awake ->
  pcint_request attiny85_current s = false ->
  wdt_request s = false ->
  snd (run attiny85_current [Int0Level true; Cpu] s) =
  Wakeup :: pulse (SLEEP_INTERRUPT_LED_PIN ATtiny85).
Proof.
  intros (Hs & Hen & Hi & Hl) Hm Hp Hw.
  rewrite !run_cons. cbn [run skip snd fst step].
  unfold update at 1 2. cbn [fst snd]. unfold int0_edge. rewrite Hs.
  unfold cpu.
  assert (Hnone : pending attiny85_current (with_int0_level true s) = None).
  { unfold pending, int0_request. cbn [with_int0_level SREG_I int0_level].
    rewrite Hi. cbn [negb].
    change (int0_enabled attiny85_current (with_int0_level true s))
      with (int0_enabled attiny85_current s).
    change (int0_sense (with_int0_level true s)) with (int0_sense s).
    change (pcint_request attiny85_current (with_int0_level true s))
      with (pcint_request attiny85_current s).
    change (wdt_request (with_int0_level true s)) with (wdt_request s).
    rewrite Hen, Hs, Hp, Hw. reflexivity. }
  rewrite Hnone. cbn [main with_int0_level]. rewrite Hm.
  rewrite main_turn_trace, app_nil_r. reflexivity.
Qed.

(** C9.  With the low-level sense of the ATtiny85 build and the INT0 input
    held low, every turn of the core is an invocation of the INT0 handler and
    the main loop never gets past [sleep_cpu()], whatever else happens; once
    the input is released, the next turn of the core resumes the main loop,
    which signals on the sleep-interrupt LED. *)
Theorem level_hold_blocks_main (s : state) (evs : list event) :
  held_low attiny85_current s ->
  forallb int0_stays_low evs = true ->
  let cfg := attiny85_current in
  let r := run cfg evs s in
  wake_cycles (snd r) = 0%nat /\
  invocations INT0_vect (snd r) = cpu_turns evs /\
  held_low cfg (fst r) /\
  (main (fst r) = Awake ->
   pcint_request cfg (fst r) = false ->
   wdt_request (fst r) = false ->
   snd (run cfg [Int0Level true; Cpu] (fst r)) =
   Wakeup :: pulse (SLEEP_INTERRUPT_LED_PIN ATtiny85)).
Proof.
  intros Hheld Hevs. cbv zeta.
  destruct (held_low_run evs s Hheld Hevs) as (H1 & H2 & H3).
  repeat split; try assumption; try apply H1.
  intros Hm Hp Hw. apply release_resumes_main; assumption.
Qed.

Lemma level_hold_blocks_main_witness :
  held_low attiny85_current int0_just_pressed /\
  forallb int0_stays_low while_int0_held = true /\
  wake_cycles (snd (run attiny85_current while_int0_held int0_just_pressed))
    = 0%nat /\
  invocations INT0_vect
    (snd (run attiny85_current while_int0_held int0_just_pressed)) = 4%nat.
Proof.
  assert (Hheld : held_low attiny85_current int0_just_pressed)
    by (repeat split).
  split; [exact Hheld|]. split; [reflexivity|].
  destruct (level_hold_blocks_main int0_just_pressed while_int0_held
              Hheld eq_refl) as (Hw & Hi & _).
  split; [exact Hw | exact Hi].
Defined.

(** ** The pin-change switch *)

(** C10, as stated, fails: when the release comes before the main loop is
    back asleep, the handler runs twice but there is one wake cycle and one
    signal. *)
Lemma pin_change_quick_tap_one_signal :
  let cfg := attiny85_current in
  let r := run cfg tap_pcint_quickly (fst (boot cfg)) in
  invocations PCINT0_vect (snd r) = 2%nat /\
  wake_cycles (snd r) = 1%nat /\
  SleepInterruptChannel cfg (snd r) = 1%nat /\
  main (fst r) = Sleeping /\
  wake_cycles (snd r) <> 2%nat.
Proof. cbv zeta. repeat split. vm_compute. discriminate. Qed.

Lemma main_turn_quiet (cfg : config) (s : state) :
  SREG_I s = true ->
  pcint_enabled cfg s = true ->
  Z.testbit (PCMSK s) (pcint_bit_of_pin (target cfg)) = true ->
  PCIF s = false -> int0_request cfg s = false -> wdt_request s = false ->
  asleep_and_quiet cfg (fst ((loop_resume cfg ;; loop_enter) s)) /\
  pcint_level (fst ((loop_resume cfg ;; loop_enter) s)) = pcint_level s.
Proof.
  intros Hi Hen Hmask Hf H0 Hw.
  assert (Hw' : wdt_request (fst ((loop_resume cfg ;; loop_enter) s)) = false).
  { unfold wdt_request in *. rewrite seq_fst, loop_enter_run. cbn [fst].
    cbn [with_main with_SREG_I with_SE WDTCR WDIF].
    rewrite loop_resume_WDTCR.
    destruct (watchdogTimeoutsRemaining s =? 0) eqn:Hz.
    - rewrite Z.testbit_0_l. reflexivity.
    - unfold loop_resume. rewrite !seq_fst.
      unfold emit, sleep_disable, update. cbn [fst]. rewrite flashLED_once.
      cbn [fst with_SE watchdogTimeoutsRemaining]. rewrite Hz. exact Hw. }
  rewrite <- (main_turn_int0_request cfg s) in H0.
  revert Hw' H0. rewrite seq_fst, loop_enter_run. cbn [fst].
  unfold loop_resume. rewrite !seq_fst.
  unfold emit, sleep_disable, update. cbn [fst]. rewrite flashLED_once.
  cbn [fst with_SE watchdogTimeoutsRemaining].
  destruct (watchdogTimeoutsRemaining s =? 0).
  - rewrite disable_watchdog_state. intros Hw' H0.
    repeat split; assumption.
  - intros Hw' H0. repeat split; assumption.
Qed.

(** One transition of the pin-change input that finds the core asleep: the
    handler runs once, the main loop wakes once and signals once. *)
Lemma pin_change_wakes_once (cfg : config) (high : bool) (s : state) :
  asleep_and_quiet cfg s ->
  pcint_level s = negb high ->
  let r := run cfg (pcint_transition high) s in
  asleep_and_quiet cfg (fst r) /\
  pcint_level (fst r) = high /\
  snd r = [Interrupt PCINT0_vect; Delay 50; Wakeup]
            ++ pulse (SLEEP_INTERRUPT_LED_PIN (target cfg)).
Proof.
  intros (Hm & Hi & Hen & Hmask & Hf & H0 & Hw) Hlvl. cbv zeta.
  unfold pcint_transition. rewrite !run_cons.
  cbn [run skip fst snd]. rewrite app_nil_r.
  cbn [step]. unfold update at 1 2 3 4 5. cbn [fst snd app].
  rewrite Hlvl, Hmask.
  replace (xorb (negb high) high && true) with true
    by (destruct high; reflexivity).
  set (s1 := with_pcint_level high (with_PCIF true s)).
  assert (Hp1 : pending cfg s1 = Some PCINT0_vect).
  { unfold pending, pcint_request.
    change (SREG_I s1) with (SREG_I s).
    change (int0_request cfg s1) with (int0_request cfg s).
    change (pcint_enabled cfg s1) with (pcint_enabled cfg s).
    change (PCIF s1) with true.
    rewrite Hi, H0, Hen. reflexivity. }
  assert (Hc1 : cpu cfg s1 = service cfg PCINT0_vect s1)
    by (unfold cpu; rewrite Hp1; reflexivity).
  rewrite !Hc1, service_fst, service_snd.
  cbn [handler acknowledge ISR_PCINT0 delay emit fst snd].
  set (s2 := with_main Awake
               (with_SREG_I true (with_SREG_I false (with_PCIF false s1)))).
  assert (Hp2 : pending cfg s2 = None).
  { unfold pending, pcint_request.
    change (SREG_I s2) with true.
    change (int0_request cfg s2) with (int0_request cfg s).
    change (PCIF s2) with false.
    change (wdt_request s2) with (wdt_request s).
    rewrite H0, Hw, andb_false_r. reflexivity. }
  assert (Hc2 : cpu cfg s2 = (loop_resume cfg ;; loop_enter) s2)
    by (unfold cpu; rewrite Hp2; reflexivity).
  rewrite !Hc2, main_turn_trace.
  destruct (main_turn_quiet cfg s2) as [Hq Hl]; try assumption; try reflexivity.
  repeat split; try apply Hq. exact Hl.
Qed.

(** C10, amended.  A press and a release of the pin-change switch that each
    find the core asleep, with interrupts enabled, the pin-change interrupt
    enabled for the switch input and nothing else pending, produce two
    handler invocations, two wake cycles and two pulses on the
    sleep-interrupt LED, none on the watchdog LED, and leave the core asleep
    again. *)
Theorem pin_change_press_and_release (cfg : config) (s : state) :
  asleep_and_quiet cfg s ->
  pcint_level s = true ->
  let r := run cfg press_and_release_pcint s in
  invocations PCINT0_vect (snd r) = 2%nat /\
  wake_cycles (snd r) = 2%nat /\
  SleepInterruptChannel cfg (snd r) = 2%nat /\
  WatchdogTimeoutChannel cfg (snd r) = 0%nat /\
  asleep_and_quiet cfg (fst r) /\
  pcint_level (fst r) = true.
Proof.
  intros Hq Hl. cbv zeta. unfold press_and_release_pcint.
  rewrite run_app.
  destruct (pin_change_wakes_once cfg false s Hq Hl) as (Hq1 & Hl1 & Ht1).
  destruct (pin_change_wakes_once cfg true _ Hq1 Hl1) as (Hq2 & Hl2 & Ht2).
  cbn [fst snd]. rewrite Ht1, Ht2.
  split; [reflexivity|]. split; [reflexivity|].
  split; [destruct cfg as [[|] r]; reflexivity|].
  split; [destruct cfg as [[|] r]; reflexivity|].
  split; assumption.
Qed.

Lemma pin_change_press_and_release_witness :
  asleep_and_quiet attiny85_current (fst (boot attiny85_current)) /\
  pcint_level (fst (boot attiny85_current)) = true /\
  wake_cycles
    (snd (run attiny85_current press_and_release_pcint
            (fst (boot attiny85_current)))) = 2%nat.
Proof.
  assert (Hq : asleep_and_quiet attiny85_current (fst (boot attiny85_current)))
    by (repeat split).
  split; [exact Hq|]. split; [reflexivity|].
  apply (pin_change_press_and_release attiny85_current
           (fst (boot attiny85_current)) Hq eq_refl).
Defined.

(** On the ATmega328P build the mask bit that [configPinChangeInt0] sets is
    not the one of the switch input, so the switch wakes nothing. *)
Lemma pin_change_atmega328p_not_armed :
  let cfg := atmega328p_current in
  let r := run cfg press_and_release_pcint (fst (boot cfg)) in
  Z.testbit (PCMSK (fst (boot cfg))) (pcint_bit_of_pin ATmega328P) = false /\
  invocations PCINT0_vect (snd r) = 0%nat /\
  wake_cycles (snd r) = 0%nat.
Proof. cbv zeta. repeat split; vm_compute; reflexivity. Qed.

(** ** The machine between steps *)

Lemma WDTCR_armed_value : WDTCR_armed = 105.
Proof. reflexivity. Qed.

Lemma int8_bounds (z : Z) : -128 <= int8 z <= 127.
Proof.
  unfold int8. pose proof (Z.mod_pos_bound (z + 128) 256 ltac:(lia)). lia.
Qed.

(** The state and the trace at the first [sleep_cpu()] after any reset. *)
Lemma boot_from_facts (cfg : config) (by_watchdog int0 pcint : bool) :
  let r := boot_from cfg by_watchdog int0 pcint in
  running cfg (fst r) /\
  WDTCR (fst r) = WDTCR_armed /\
  main (fst r) = Sleeping /\
  WDIF (fst r) = false /\ INTF0 (fst r) = false /\ PCIF (fst r) = false /\
  watchdogTimeoutsRemaining (fst r) = initial_budget cfg /\
  int0_level (fst r) = int0 /\ pcint_level (fst r) = pcint /\
  snd r = snd (boot cfg).
Proof.
  destruct cfg as [[|] [|]], by_watchdog, int0, pcint; unfold running;
    repeat split; try reflexivity; try (left; reflexivity);
    vm_compute; discriminate.
Qed.

Lemma boot_running (cfg : config) : running cfg (fst (boot cfg)).
Proof. apply (boot_from_facts cfg false true true). Qed.

Lemma cpu_cases (cfg : config) (s : state) :
  (exists v, pending cfg s = Some v /\ cpu cfg s = service cfg v s) \/
  (pending cfg s = None /\ main s = Awake /\
   cpu cfg s = (loop_resume cfg ;; loop_enter) s) \/
  (pending cfg s = None /\ main s = Sleeping /\ cpu cfg s = (s, [])).
Proof.
  unfold cpu. destruct (pending cfg s) as [v|].
  - left. exists v. split; reflexivity.
  - right. destruct (main s); [right | left]; repeat split.
Qed.

Lemma pending_wdt_request (cfg : config) (s : state) :
  pending cfg s = Some WDT_vect ->
  Z.testbit (WDTCR s) WDIE = true /\ WDIF s = true.
Proof.
  unfold pending, wdt_request.
  destruct (negb (SREG_I s)); [discriminate|].
  destruct (int0_request cfg s); [discriminate|].
  destruct (pcint_request cfg s); [discriminate|].
  destruct (Z.testbit (WDTCR s) WDIE); [|discriminate].
  destruct (WDIF s); [|discriminate]. split; reflexivity.
Qed.

Lemma main_turn_fst (cfg : config) (s : state) :
  fst ((loop_resume cfg ;; loop_enter) s) =
  with_main Sleeping
    (with_SREG_I true
       (with_SE true
          (if watchdogTimeoutsRemaining s =? 0
           then with_WDTCR 0
                  (with_MCUSR (clear_bits (MCUSR s) (_BV WDRF))
                     (with_SE false s))
           else with_SE false s))).
Proof.
  rewrite seq_fst, loop_enter_run. cbn [fst].
  unfold loop_resume. rewrite !seq_fst.
  unfold emit, sleep_disable, update. cbn [fst]. rewrite flashLED_once.
  cbn [fst with_SE watchdogTimeoutsRemaining].
  destruct (watchdogTimeoutsRemaining s =? 0).
  - rewrite disable_watchdog_state. reflexivity.
  - reflexivity.
Qed.

Lemma service_WDT_armed (cfg : config) (s : state) :
  WDTCR s = WDTCR_armed ->
  MCUSR s = 0 ->
  fst (service cfg WDT_vect s) =
  with_main Awake
    (with_SREG_I true
       (with_WDIF false
          (with_counter (int8 (watchdogTimeoutsRemaining s - 1)) s))).
Proof.
  intros Hw Hm. rewrite service_fst. cbn [handler acknowledge].
  rewrite ISR_WDT_run. cbn [fst].
  unfold rearm_WDIE, store_WDTCR, update. rewrite Hw.
  destruct s. cbn in Hw, Hm |- *. subst. reflexivity.
Qed.

Lemma running_same (cfg : config) (s s' : state) :
  running cfg s ->
  WDTCR s' = WDTCR s -> MCUSR s' = MCUSR s -> SREG_I s' = true ->
  INTCTL s' = INTCTL s -> INTMSK s' = INTMSK s ->
  PCICR s' = PCICR s -> PCMSK s' = PCMSK s ->
  watchdogTimeoutsRemaining s' = watchdogTimeoutsRemaining s ->
  running cfg s'.
Proof.
  intros (Hw & Hm & Hi & Hc1 & Hc2 & Hc3 & Hc4 & Hr) E1 E2 E3 E4 E5 E6 E7 E8.
  unfold running. rewrite E1, E2, E3, E4, E5, E6, E7, E8.
  repeat split; try assumption; apply Hr.
Qed.

(** What an elapsed watchdog period does after [setup]: it raises the
    interrupt, or resets the chip when the previous interrupt is still
    pending, or nothing when the watchdog is off. *)
Lemma watchdog_timeout_cases (cfg : config) (s : state) :
  running cfg s ->
  (watchdog_timeout cfg s = (with_WDIF true s, []) /\
   WDTCR s = WDTCR_armed /\ WDIF s = false) \/
  (watchdog_timeout cfg s = boot_from cfg true (int0_level s) (pcint_level s) /\
   WDTCR s = WDTCR_armed /\ WDIF s = true) \/
  (watchdog_timeout cfg s = (s, []) /\ WDTCR s = 0).
Proof.
  intros (Hw & _). unfold watchdog_timeout.
  destruct Hw as [Hw|Hw]; rewrite Hw.
  - destruct (WDIF s); [right; left | left]; repeat split.
  - right. right. split; reflexivity.
Qed.

Lemma overrun_timeout (cfg : config) (s : state) :
  running cfg s ->
  overrun WdtTimeout s =
  match WDTCR s =? 0, WDIF s with
  | false, true => true
  | _, _ => false
  end.
Proof.
  intros (Hw & _). unfold overrun. cbn [is_timeout andb].
  destruct Hw as [Hw|Hw]; rewrite Hw; destruct (WDIF s); reflexivity.
Qed.

(** One step keeps the machine [running]. *)
Lemma step_running (cfg : config) (e : event) (s : state) :
  running cfg s -> running cfg (fst (step cfg e s)).
Proof.
  intros Hrun.
  pose proof Hrun as (Hw & Hm & Hi & Hc1 & Hc2 & Hc3 & Hc4 & Hr).
  destruct e as [|high|high|]; cbn [step].
  - destruct (watchdog_timeout_cases cfg s Hrun)
      as [(Ht & _) | [(Ht & _) | (Ht & _)]]; rewrite Ht.
    + apply (running_same cfg s); try reflexivity; assumption.
    + apply boot_from_facts.
    + exact Hrun.
  - unfold update. cbn [fst snd].
    destruct (int0_edge s (int0_level s) high);
      apply (running_same cfg s); try reflexivity; assumption.
  - unfold update. cbn [fst snd].
    destruct (xorb (pcint_level s) high
              && Z.testbit (PCMSK s) (pcint_bit_of_pin (target cfg)));
      apply (running_same cfg s); try reflexivity; assumption.
  - destruct (cpu_cases cfg s)
      as [(v & Hp & Hcpu) | [(Hp & Hs & Hcpu) | (Hp & Hs & Hcpu)]];
      rewrite Hcpu.
    + destruct v.
      * rewrite service_fst. cbn [handler acknowledge].
        rewrite ISR_INT0_fst.
        apply (running_same cfg s); try reflexivity; assumption.
      * rewrite service_fst. cbn [handler acknowledge].
        apply (running_same cfg s); try reflexivity; assumption.
      * destruct (pending_wdt_request cfg s Hp) as [Hie _].
        destruct Hw as [Hw|Hw];
          [|rewrite Hw, Z.testbit_0_l in Hie; discriminate].
        rewrite (service_WDT_armed cfg s Hw Hm).
        unfold running.
        cbn [with_main with_SREG_I with_WDIF with_counter WDTCR MCUSR
             SREG_I INTCTL INTMSK PCICR PCMSK watchdogTimeoutsRemaining].
        repeat split; try assumption; try (left; assumption);
          apply int8_bounds.
    + rewrite main_turn_fst.
      destruct (watchdogTimeoutsRemaining s =? 0).
      * unfold running.
        cbn [with_main with_SREG_I with_SE with_WDTCR with_MCUSR WDTCR MCUSR
             SREG_I INTCTL INTMSK PCICR PCMSK watchdogTimeoutsRemaining].
        rewrite Hm.
        repeat split; try assumption; try (right; reflexivity); apply Hr.
      * apply (running_same cfg s); try reflexivity; assumption.
    + exact Hrun.
Qed.

Lemma run_running (cfg : config) (evs : list event) (s : state) :
  running cfg s -> running cfg (fst (run cfg evs s)).
Proof.
  revert s. induction evs as [|e evs IH]; intros s Hrun.
  - exact Hrun.
  - rewrite run_cons. cbn [fst]. apply IH, step_running, Hrun.
Qed.

Lemma handler_trace_correct (cfg : config) (v : vector) (s : state) :
  snd (handler cfg v s) = handler_trace cfg v.
Proof.
  destruct v; cbn [handler handler_trace]; try reflexivity.
  unfold ISR_INT0. destruct (rev cfg); reflexivity.
Qed.

(** What one step logs and what it does to the main context: nothing, a
    handler, the main loop from wake-up to sleep, or a restart. *)
Lemma step_outcome (cfg : config) (e : event) (s : state) :
  running cfg s ->
  (snd (step cfg e s) = [] /\ main (fst (step cfg e s)) = main s /\
   overrun e s = false) \/
  (exists v, snd (step cfg e s) = Interrupt v :: handler_trace cfg v /\
             main (fst (step cfg e s)) = Awake /\ overrun e s = false) \/
  (main s = Awake /\
   snd (step cfg e s) = Wakeup :: pulse (SLEEP_INTERRUPT_LED_PIN (target cfg)) /\
   main (fst (step cfg e s)) = Sleeping /\ overrun e s = false) \/
  (snd (step cfg e s) = snd (boot cfg) /\
   main (fst (step cfg e s)) = Sleeping /\ overrun e s = true).
Proof.
  intros Hrun.
  destruct e as [|high|high|]; cbn [step].
  - rewrite (overrun_timeout cfg s Hrun).
    destruct (watchdog_timeout_cases cfg s Hrun)
      as [(Ht & Hw & Hf) | [(Ht & Hw & Hf) | (Ht & Hw)]]; rewrite Ht, Hw.
    + left. rewrite Hf. repeat split.
    + right. right. right. rewrite Hf.
      destruct (boot_from_facts cfg true (int0_level s) (pcint_level s))
        as (_ & _ & Hm & _ & _ & _ & _ & _ & _ & Ht').
      split; [exact Ht'|]. split; [exact Hm | reflexivity].
    + left. repeat split.
  - left. unfold update. cbn [fst snd]. split; [reflexivity|].
    split; [|reflexivity].
    destruct (int0_edge s (int0_level s) high); reflexivity.
  - left. unfold update. cbn [fst snd]. split; [reflexivity|].
    split; [|reflexivity].
    destruct (xorb (pcint_level s) high
              && Z.testbit (PCMSK s) (pcint_bit_of_pin (target cfg)));
      reflexivity.
  - destruct (cpu_cases cfg s)
      as [(v & Hp & Hcpu) | [(Hp & Hs & Hcpu) | (Hp & Hs & Hcpu)]];
      rewrite Hcpu.
    + right. left. exists v.
      rewrite service_fst, service_snd, handler_trace_correct.
      repeat split.
    + right. right. left. rewrite main_turn_fst, main_turn_trace.
      repeat split. exact Hs.
    + left. repeat split.
Qed.

Lemma handler_runs_app (t u : trace) :
  handler_runs (t ++ u) = (handler_runs t + handler_runs u)%nat.
Proof. unfold handler_runs. rewrite !invocations_app. lia. Qed.

Lemma setup_runs_app (cfg : config) (t u : trace) :
  setup_runs cfg (t ++ u) = (setup_runs cfg t + setup_runs cfg u)%nat.
Proof. unfold setup_runs. rewrite filter_app, length_app. reflexivity. Qed.

(** What start-up logs: one run of [setup], one pulse of each LED in its
    self-test, no handler and no wake-up. *)
Lemma boot_trace_counts (cfg : config) :
  let t := snd (boot cfg) in
  setup_runs cfg t = 1%nat /\
  SleepInterruptChannel cfg t = 1%nat /\
  WatchdogTimeoutChannel cfg t = 1%nat /\
  wake_cycles t = 0%nat /\ handler_runs t = 0%nat /\
  invocations WDT_vect t = 0%nat /\ invocations INT0_vect t = 0%nat /\
  invocations PCINT0_vect t = 0%nat /\
  awake_flag (fst (boot cfg)) = 0%nat.
Proof. destruct cfg as [[|] [|]]; repeat split. Qed.

(** The ledger of one step: LED pulses against handler runs, wake-ups and
    restarts. *)
Lemma step_ledger (cfg : config) (e : event) (s : state) :
  running cfg s ->
  let t := snd (step cfg e s) in
  setup_runs cfg t = (if overrun e s then 1 else 0)%nat /\
  SleepInterruptChannel cfg t = (wake_cycles t + setup_runs cfg t)%nat /\
  WatchdogTimeoutChannel cfg t =
    (invocations WDT_vect t + int0_led_pulses cfg * invocations INT0_vect t
     + setup_runs cfg t)%nat /\
  (wake_cycles t + awake_flag (fst (step cfg e s))
   <= handler_runs t + awake_flag s)%nat.
Proof.
  intros Hrun. cbv zeta.
  destruct (step_outcome cfg e s Hrun)
    as [(Ht & Hm & Ho) | [(v & Ht & Hm & Ho) | [(Hs & Ht & Hm & Ho)
                                               | (Ht & Hm & Ho)]]];
    rewrite Ht, Ho; unfold awake_flag; rewrite Hm.
  - destruct cfg as [[|] [|]]; repeat split; apply Nat.le_refl.
  - destruct v, cfg as [[|] [|]], (main s); repeat split; vm_compute; lia.
  - rewrite Hs. destruct cfg as [[|] [|]]; repeat split; apply Nat.le_refl.
  - destruct cfg as [[|] [|]], (main s); repeat split; vm_compute; lia.
Qed.

Lemma run_ledger (cfg : config) (evs : list event) (s : state) :
  running cfg s ->
  let t := snd (run cfg evs s) in
  setup_runs cfg t = overruns cfg evs s /\
  SleepInterruptChannel cfg t = (wake_cycles t + setup_runs cfg t)%nat /\
  WatchdogTimeoutChannel cfg t =
    (invocations WDT_vect t + int0_led_pulses cfg * invocations INT0_vect t
     + setup_runs cfg t)%nat /\
  (wake_cycles t + awake_flag (fst (run cfg evs s))
   <= handler_runs t + awake_flag s)%nat.
Proof.
  revert s. induction evs as [|e evs IH]; intros s Hrun; cbv zeta.
  - cbn [run skip fst snd overruns]. destruct cfg as [[|] [|]]; repeat split;
      apply Nat.le_refl.
  - rewrite run_cons. cbn [fst snd overruns].
    destruct (step_ledger cfg e s Hrun) as (H0 & H1 & H2 & H3).
    pose proof (step_running cfg e s Hrun) as Hrun'.
    destruct (IH _ Hrun') as (I0 & I1 & I2 & I3).
    unfold SleepInterruptChannel, WatchdogTimeoutChannel in *.
    rewrite !pulses_app, wake_cycles_app, handler_runs_app, !invocations_app,
      !setup_runs_app.
    rewrite H1, H2, I1, I2, H0, I0. repeat split; lia.
Qed.

(** ** Whole runs from power-on *)

(** The watchdog restarts the sketch exactly when a watchdog period elapses
    while the interrupt of the previous period is still pending, and for no
    other reason: [setup] runs again once per such period.  In particular it
    is never restarted for want of WDIE: between steps WDIE is set whenever
    WDE is, and no reset cause is left in MCUSR. *)
Theorem watchdog_resets_only_on_overrun (cfg : config) (evs : list event) :
  let r := run cfg evs (fst (boot cfg)) in
  setup_runs cfg (snd r) = overruns cfg evs (fst (boot cfg)) /\
  Z.testbit (MCUSR (fst r)) WDRF = false /\
  Z.testbit (WDTCR (fst r)) WDIE = Z.testbit (WDTCR (fst r)) WDE.
Proof.
  cbv zeta.
  destruct (run_ledger cfg evs _ (boot_running cfg)) as (Hsetup & _).
  destruct (run_running cfg evs _ (boot_running cfg)) as (Hw & Hm & _).
  split; [exact Hsetup|]. rewrite Hm. split; [reflexivity|].
  destruct Hw as [Hw|Hw]; rewrite Hw; reflexivity.
Qed.

(** Nothing after [setup] touches the interrupt configuration: at every
    point of every run interrupts are globally enabled, INT0 and the
    pin-change interrupt are enabled, and the INT0 sense is the one the build
    selected. *)
Theorem interrupt_configuration_is_stable (cfg : config) (evs : list event) :
  let s := fst (run cfg evs (fst (boot cfg))) in
  SREG_I s = true /\
  int0_enabled cfg s = true /\
  pcint_enabled cfg s = true /\
  int0_sense s = configured_sense cfg /\
  PCMSK s = PCMSK (fst (boot cfg)).
Proof.
  cbv zeta.
  pose proof (run_running cfg evs _ (boot_running cfg)) as Hrun.
  destruct Hrun as (_ & _ & Hi & Hc1 & Hc2 & Hc3 & Hc4 & _).
  unfold int0_enabled, pcint_enabled, int0_sense.
  rewrite Hi, Hc1, Hc2, Hc4.
  destruct cfg as [[|] [|]]; cbn [target]; rewrite ?Hc3; repeat split.
Qed.

(** From power-on, start-up included: the pulses on the sleep-interrupt LED
    are the returns from [sleep_cpu()] plus one per run of [setup] (its
    self-test), and the main loop never returns from [sleep_cpu()] more often
    than handlers have run. *)
Theorem sleep_led_counts_wake_ups (cfg : config) (evs : list event) :
  let t := from_power_on cfg evs in
  SleepInterruptChannel cfg t = (wake_cycles t + setup_runs cfg t)%nat /\
  (wake_cycles t <= handler_runs t)%nat.
Proof.
  cbv zeta. unfold from_power_on.
  destruct (run_ledger cfg evs _ (boot_running cfg)) as (_ & H1 & _ & H3).
  destruct (boot_trace_counts cfg)
    as (B0 & B1 & _ & B3 & B4 & _ & _ & _ & B8).
  unfold SleepInterruptChannel in *.
  rewrite pulses_app, wake_cycles_app, setup_runs_app, handler_runs_app.
  rewrite H1, B0, B1, B3, B4. rewrite B8 in H3. split; lia.
Qed.

(** From power-on, start-up included: every pulse on the watchdog LED is
    accounted for, one per watchdog handler run, two per INT0 handler run in
    the current sketch (none in the earlier revision), and one per run of
    [setup] (its self-test). *)
Theorem watchdog_led_ledger (cfg : config) (evs : list event) :
  let t := from_power_on cfg evs in
  WatchdogTimeoutChannel cfg t =
  (invocations WDT_vect t + int0_led_pulses cfg * invocations INT0_vect t
   + setup_runs cfg t)%nat.
Proof.
  cbv zeta. unfold from_power_on.
  destruct (run_ledger cfg evs _ (boot_running cfg)) as (_ & _ & H2 & _).
  destruct (boot_trace_counts cfg)
    as (B0 & _ & B2 & _ & _ & B5 & B6 & _).
  unfold WatchdogTimeoutChannel in *.
  rewrite pulses_app, !invocations_app, setup_runs_app.
  rewrite H2, B0, B2, B5, B6. lia.
Qed.

(** ** Handler runs against the events that cause them *)

Lemma invocations_service (cfg : config) (v w : vector) :
  invocations w (Interrupt v :: handler_trace cfg v) =
  flag (is_interrupt w (Interrupt v)).
Proof. destruct v, w, cfg as [[|] [|]]; reflexivity. Qed.

Lemma invocations_main_turn (cfg : config) (w : vector) :
  invocations w (Wakeup :: pulse (SLEEP_INTERRUPT_LED_PIN (target cfg))) = 0%nat.
Proof. destruct w, cfg as [[|] r]; reflexivity. Qed.

Lemma invocations_boot (cfg : config) (w : vector) :
  invocations w (snd (boot cfg)) = 0%nat.
Proof. destruct w, cfg as [[|] [|]]; reflexivity. Qed.

Lemma pending_int0_request (cfg : config) (s : state) :
  pending cfg s = Some INT0_vect -> int0_request cfg s = true.
Proof.
  unfold pending. destruct (negb (SREG_I s)); [discriminate|].
  destruct (int0_request cfg s); [reflexivity|].
  destruct (pcint_request cfg s); [discriminate|].
  destruct (wdt_request s); discriminate.
Qed.

Lemma pending_pcint_request (cfg : config) (s : state) :
  pending cfg s = Some PCINT0_vect -> PCIF s = true.
Proof.
  unfold pending, pcint_request. destruct (negb (SREG_I s)); [discriminate|].
  destruct (int0_request cfg s); [discriminate|].
  destruct (pcint_enabled cfg s); cbn [andb].
  - destruct (PCIF s); [reflexivity|]. destruct (wdt_request s); discriminate.
  - destruct (wdt_request s); discriminate.
Qed.

Lemma service_other_fst (cfg : config) (v : vector) (s : state) :
  v <> WDT_vect ->
  fst (service cfg v s) =
  with_main Awake (with_SREG_I true (with_SREG_I false (acknowledge v s))).
Proof.
  intros Hv. rewrite service_fst. destruct v; cbn [handler].
  - rewrite ISR_INT0_fst. reflexivity.
  - reflexivity.
  - congruence.
Qed.

(** An elapsed watchdog period runs no handler and sets neither the INT0
    nor the pin-change flag. *)
Lemma timeout_effect (cfg : config) (s : state) :
  running cfg s ->
  let r := watchdog_timeout cfg s in
  (forall w, invocations w (snd r) = 0%nat) /\
  (flag (INTF0 (fst r)) <= flag (INTF0 s))%nat /\
  (flag (PCIF (fst r)) <= flag (PCIF s))%nat.
Proof.
  intros Hrun. cbv zeta.
  destruct (watchdog_timeout_cases cfg s Hrun)
    as [(Ht & _) | [(Ht & _) | (Ht & _)]]; rewrite Ht.
  - repeat split; cbn; lia.
  - destruct (boot_from_facts cfg true (int0_level s) (pcint_level s))
      as (_ & _ & _ & _ & Hf0 & Hfp & _ & _ & _ & Htr).
    rewrite Htr, Hf0, Hfp. split; [apply invocations_boot|].
    cbn [flag]. split; lia.
  - repeat split; cbn; lia.
Qed.

(** The watchdog handler runs at most once per elapsed period. *)
Lemma step_watchdog_runs (cfg : config) (e : event) (s : state) :
  running cfg s ->
  (invocations WDT_vect (snd (step cfg e s)) + flag (WDIF (fst (step cfg e s)))
   <= flag (is_timeout e) + flag (WDIF s))%nat.
Proof.
  intros Hrun. pose proof Hrun as (Hw & Hm & _).
  destruct e as [|high|high|]; cbn [step is_timeout].
  - destruct (timeout_effect cfg s Hrun) as (Hi & _). rewrite Hi.
    destruct (WDIF (fst (watchdog_timeout cfg s))), (WDIF s); cbn; lia.
  - unfold update. cbn [fst snd].
    destruct (int0_edge s (int0_level s) high); cbn; lia.
  - unfold update. cbn [fst snd].
    destruct (xorb (pcint_level s) high
              && Z.testbit (PCMSK s) (pcint_bit_of_pin (target cfg)));
      cbn; lia.
  - destruct (cpu_cases cfg s)
      as [(v & Hp & Hcpu) | [(Hp & Hs & Hcpu) | (Hp & Hs & Hcpu)]];
      rewrite Hcpu.
    + rewrite service_snd, handler_trace_correct, invocations_service.
      destruct v.
      * rewrite service_other_fst by discriminate. cbn. lia.
      * rewrite service_other_fst by discriminate. cbn. lia.
      * destruct (pending_wdt_request cfg s Hp) as [Hie Hif].
        destruct Hw as [Hw|Hw];
          [|rewrite Hw, Z.testbit_0_l in Hie; discriminate].
        rewrite (service_WDT_armed cfg s Hw Hm), Hif. cbn. lia.
    + rewrite main_turn_fst, main_turn_trace, invocations_main_turn.
      destruct (watchdogTimeoutsRemaining s =? 0); cbn; lia.
    + cbn. lia.
Qed.

(** The pin-change handler runs at most once per change of the input. *)
Lemma step_pcint_runs (cfg : config) (e : event) (s : state) :
  running cfg s ->
  (invocations PCINT0_vect (snd (step cfg e s))
   + flag (PCIF (fst (step cfg e s)))
   <= flag (is_pcint_event e) + flag (PCIF s))%nat.
Proof.
  intros Hrun. pose proof Hrun as (Hw & Hm & _).
  destruct e as [|high|high|]; cbn [step is_pcint_event].
  - destruct (timeout_effect cfg s Hrun) as (Hi & _ & Hp). rewrite Hi.
    cbn [flag]. lia.
  - unfold update. cbn [fst snd].
    destruct (int0_edge s (int0_level s) high); cbn; lia.
  - unfold update. cbn [fst snd].
    destruct (xorb (pcint_level s) high
              && Z.testbit (PCMSK s) (pcint_bit_of_pin (target cfg)));
      cbn; destruct (PCIF s); cbn; lia.
  - destruct (cpu_cases cfg s)
      as [(v & Hp & Hcpu) | [(Hp & Hs & Hcpu) | (Hp & Hs & Hcpu)]];
      rewrite Hcpu.
    + rewrite service_snd, handler_trace_correct, invocations_service.
      destruct v.
      * rewrite service_other_fst by discriminate. cbn. lia.
      * rewrite service_other_fst by discriminate.
        rewrite (pending_pcint_request cfg s Hp). cbn. lia.
      * destruct (pending_wdt_request cfg s Hp) as [Hie Hif].
        destruct Hw as [Hw|Hw];
          [|rewrite Hw, Z.testbit_0_l in Hie; discriminate].
        rewrite (service_WDT_armed cfg s Hw Hm). cbn. lia.
    + rewrite main_turn_fst, main_turn_trace, invocations_main_turn.
      destruct (watchdogTimeoutsRemaining s =? 0); cbn; lia.
    + cbn. lia.
Qed.

Lemma occurrences_cons (f : event -> bool) (e : event) (evs : list event) :
  occurrences f (e :: evs) = (flag (f e) + occurrences f evs)%nat.
Proof. unfold occurrences. cbn [filter]. destruct (f e); reflexivity. Qed.

Lemma run_watchdog_runs (cfg : config) (evs : list event) (s : state) :
  running cfg s ->
  (invocations WDT_vect (snd (run cfg evs s)) + flag (WDIF (fst (run cfg evs s)))
   <= occurrences is_timeout evs + flag (WDIF s))%nat.
Proof.
  revert s. induction evs as [|e evs IH]; intros s Hrun.
  - cbn. lia.
  - rewrite run_cons, occurrences_cons. cbn [fst snd].
    rewrite invocations_app.
    pose proof (step_watchdog_runs cfg e s Hrun).
    pose proof (IH _ (step_running cfg e s Hrun)). lia.
Qed.

Lemma run_pcint_runs (cfg : config) (evs : list event) (s : state) :
  running cfg s ->
  (invocations PCINT0_vect (snd (run cfg evs s))
   + flag (PCIF (fst (run cfg evs s)))
   <= occurrences is_pcint_event evs + flag (PCIF s))%nat.
Proof.
  revert s. induction evs as [|e evs IH]; intros s Hrun.
  - cbn. lia.
  - rewrite run_cons, occurrences_cons. cbn [fst snd].
    rewrite invocations_app.
    pose proof (step_pcint_runs cfg e s Hrun).
    pose proof (IH _ (step_running cfg e s Hrun)). lia.
Qed.

(** From power-on, start-up included, the watchdog handler runs at most as
    often as watchdog periods have elapsed, and the pin-change handler at
    most as often as its input has made a transition. *)
Theorem handler_runs_bounded_by_causes (cfg : config) (evs : list event) :
  let t := from_power_on cfg evs in
  (invocations WDT_vect t <= occurrences is_timeout evs)%nat /\
  (invocations PCINT0_vect t <= occurrences is_pcint_event evs)%nat.
Proof.
  cbv zeta. unfold from_power_on. rewrite !invocations_app, !invocations_boot.
  pose proof (run_watchdog_runs cfg evs _ (boot_running cfg)) as H1.
  pose proof (run_pcint_runs cfg evs _ (boot_running cfg)) as H2.
  destruct (boot_from_facts cfg false true true)
    as (_ & _ & _ & Hb1 & _ & Hb2 & _).
  fold (boot cfg) in Hb1, Hb2.
  rewrite Hb1 in H1. rewrite Hb2 in H2. cbn [flag] in H1, H2. lia.
Qed.

Lemma running_sense (cfg : config) (s : state) :
  running cfg s -> int0_sense s = configured_sense cfg.
Proof.
  intros (_ & _ & _ & Hc & _). unfold int0_sense. rewrite Hc.
  destruct cfg as [[|] [|]]; reflexivity.
Qed.

Lemma step_int0_runs (cfg : config) (e : event) (s : state) :
  configured_sense cfg = FallingEdge ->
  running cfg s ->
  (invocations INT0_vect (snd (step cfg e s))
   + flag (INTF0 (fst (step cfg e s)))
   <= flag (is_int0_press e) + flag (INTF0 s))%nat.
Proof.
  intros Hedge Hrun. pose proof Hrun as (Hw & Hm & _).
  pose proof (running_sense cfg s Hrun) as Hsense. rewrite Hedge in Hsense.
  destruct e as [|high|high|]; cbn [step is_int0_press].
  - destruct (timeout_effect cfg s Hrun) as (Hi & H0 & _). rewrite Hi.
    cbn [flag]. lia.
  - unfold update, int0_edge. rewrite Hsense. cbn [fst snd].
    destruct (int0_level s), high; cbn; destruct (INTF0 s); cbn; lia.
  - unfold update. cbn [fst snd].
    destruct (xorb (pcint_level s) high
              && Z.testbit (PCMSK s) (pcint_bit_of_pin (target cfg)));
      cbn; lia.
  - destruct (cpu_cases cfg s)
      as [(v & Hp & Hcpu) | [(Hp & Hs & Hcpu) | (Hp & Hs & Hcpu)]];
      rewrite Hcpu.
    + rewrite service_snd, handler_trace_correct, invocations_service.
      destruct v.
      * rewrite service_other_fst by discriminate.
        pose proof (pending_int0_request cfg s Hp) as Hreq.
        unfold int0_request in Hreq. rewrite Hsense in Hreq.
        apply andb_true_iff in Hreq as [_ Hflag]. rewrite Hflag. cbn. lia.
      * rewrite service_other_fst by discriminate. cbn. lia.
      * destruct (pending_wdt_request cfg s Hp) as [Hie Hif].
        destruct Hw as [Hw|Hw];
          [|rewrite Hw, Z.testbit_0_l in Hie; discriminate].
        rewrite (service_WDT_armed cfg s Hw Hm). cbn. lia.
    + rewrite main_turn_fst, main_turn_trace, invocations_main_turn.
      destruct (watchdogTimeoutsRemaining s =? 0); cbn; lia.
    + cbn. lia.
Qed.

Lemma run_int0_runs (cfg : config) (evs : list event) (s : state) :
  configured_sense cfg = FallingEdge ->
  running cfg s ->
  (invocations INT0_vect (snd (run cfg evs s))
   + flag (INTF0 (fst (run cfg evs s)))
   <= occurrences is_int0_press evs + flag (INTF0 s))%nat.
Proof.
  intros Hedge. revert s. induction evs as [|e evs IH]; intros s Hrun.
  - cbn. lia.
  - rewrite run_cons, occurrences_cons. cbn [fst snd].
    rewrite invocations_app.
    pose proof (step_int0_runs cfg e s Hedge Hrun).
    pose proof (IH _ (step_running cfg e s Hrun)). lia.
Qed.

(** With falling-edge sense (both builds of the earlier revision, the
    ATmega328P build of the current one) the INT0 handler runs at most once
    per press of the switch, in every run: releases cause nothing, and
    presses that arrive while one is pending are merged. *)
Theorem edge_int0_at_most_once_per_press (cfg : config) (evs : list event) :
  configured_sense cfg = FallingEdge ->
  (invocations INT0_vect (snd (run cfg evs (fst (boot cfg))))
   <= occurrences is_int0_press evs)%nat.
Proof.
  intros Hedge.
  pose proof (run_int0_runs cfg evs _ Hedge (boot_running cfg)) as H.
  assert (Hb : INTF0 (fst (boot cfg)) = false)
    by (destruct cfg as [[|] [|]]; reflexivity).
  rewrite Hb in H. cbn [flag] in H. lia.
Qed.

Lemma edge_int0_at_most_once_per_press_witness :
  configured_sense atmega328p_current = FallingEdge /\
  (invocations INT0_vect
     (snd (run atmega328p_current bouncing_press (fst (boot atmega328p_current))))
   <= 3)%nat.
Proof.
  split; [reflexivity|].
  apply (edge_int0_at_most_once_per_press atmega328p_current bouncing_press
           eq_refl).
Defined.

(** ** The pin-change mask of the ATmega328P build *)

Lemma step_pcint_unarmed (r : revision) (e : event) (s : state) :
  let cfg := {| target := ATmega328P; rev := r |} in
  running cfg s ->
  PCIF s = false ->
  PCIF (fst (step cfg e s)) = false /\
  invocations PCINT0_vect (snd (step cfg e s)) = 0%nat.
Proof.
  cbv zeta. intros Hrun Hf.
  destruct e as [|high|high|].
  - pose proof (step_pcint_runs _ WdtTimeout s Hrun) as H.
    rewrite Hf in H. cbn [is_pcint_event flag] in H.
    destruct (PCIF (fst (step _ WdtTimeout s))); cbn [flag] in H;
      split; try reflexivity; lia.
  - pose proof (step_pcint_runs _ (Int0Level high) s Hrun) as H.
    rewrite Hf in H. cbn [is_pcint_event flag] in H.
    destruct (PCIF (fst (step _ (Int0Level high) s))); cbn [flag] in H;
      split; try reflexivity; lia.
  - destruct Hrun as (_ & _ & _ & _ & _ & _ & Hmask & _).
    cbn [step]. unfold update. cbn [fst snd target]. rewrite Hmask.
    replace (Z.testbit (PCMSK (fst (boot {| target := ATmega328P; rev := r |})))
               (pcint_bit_of_pin ATmega328P)) with false
      by (destruct r; reflexivity).
    rewrite andb_false_r. split; [exact Hf | reflexivity].
  - pose proof (step_pcint_runs _ Cpu s Hrun) as H.
    rewrite Hf in H. cbn [is_pcint_event flag] in H.
    destruct (PCIF (fst (step _ Cpu s))); cbn [flag] in H;
      split; try reflexivity; lia.
Qed.

Lemma run_pcint_unarmed (r : revision) (evs : list event) (s : state) :
  let cfg := {| target := ATmega328P; rev := r |} in
  running cfg s ->
  PCIF s = false ->
  invocations PCINT0_vect (snd (run cfg evs s)) = 0%nat.
Proof.
  cbv zeta. revert s. induction evs as [|e evs IH]; intros s Hrun Hf.
  - reflexivity.
  - rewrite run_cons. cbn [snd]. rewrite invocations_app.
    destruct (step_pcint_unarmed r e s Hrun Hf) as [H1 H2].
    rewrite H2, (IH _ (step_running _ e s Hrun) H1). reflexivity.
Qed.

(** On the ATmega328P build, of either revision, [configPinChangeInt0] sets
    the mask bit PCINT1 while the switch is on PCINT0, so the pin-change
    handler never runs, whatever the switch does. *)
Theorem atmega328p_pin_change_never_fires (r : revision) (evs : list event) :
  let cfg := {| target := ATmega328P; rev := r |} in
  PCMSK (fst (boot cfg)) = _BV PCINT1 /\
  Z.testbit (PCMSK (fst (boot cfg))) (pcint_bit_of_pin ATmega328P) = false /\
  invocations PCINT0_vect (snd (run cfg evs (fst (boot cfg)))) = 0%nat.
Proof.
  cbv zeta. split; [destruct r; reflexivity|].
  split; [destruct r; reflexivity|].
  apply run_pcint_unarmed; [apply boot_running | destruct r; reflexivity].
Qed.

(** ** The LED helpers *)

Lemma times_pulse (pin : Z) (k : nat) (s : state) :
  times k (digitalWrite pin true ;; delay 200 ;;
           digitalWrite pin false ;; delay 200) s =
  (s, concat (repeat (pulse pin) k)).
Proof.
  revert s. induction k as [|k IH]; intros s.
  - reflexivity.
  - cbn [times repeat concat].
    apply injective_projections; cbn [fst snd].
    + rewrite seq_fst, IH. reflexivity.
    + rewrite seq_snd, IH. reflexivity.
Qed.

Lemma pulses_repeat (pin other : Z) (k : nat) :
  pulses other (concat (repeat (pulse pin) k)) =
  if other =? pin then k else 0%nat.
Proof.
  induction k as [|k IH].
  - destruct (other =? pin); reflexivity.
  - cbn [repeat concat]. rewrite pulses_app, IH.
    unfold pulses, pulse. cbn [filter is_pulse]. rewrite (Z.eqb_sym pin other).
    destruct (other =? pin); reflexivity.
Qed.

Lemma blocked_ms_app (t u : trace) :
  blocked_ms (t ++ u) = blocked_ms t + blocked_ms u.
Proof.
  induction t as [|a t IH]; [reflexivity|].
  destruct a; cbn [app blocked_ms]; rewrite IH; lia.
Qed.

Lemma blocked_ms_repeat (pin : Z) (k : nat) :
  blocked_ms (concat (repeat (pulse pin) k)) = 400 * Z.of_nat k.
Proof.
  induction k as [|k IH]; [reflexivity|].
  cbn [repeat concat]. rewrite blocked_ms_app, IH.
  unfold pulse. cbn [blocked_ms]. lia.
Qed.

(** [flashLED(pin, n)] drives exactly [n] pulses on [pin] and none on any
    other pin, blocks for 400 ms per pulse, and writes no state; with
    [n = 0] it does nothing at all. *)
Theorem flashLED_pulses (pin other n : Z) (s : state) :
  0 <= n <= 255 ->
  fst (flashLED pin n s) = s /\
  pulses pin (snd (flashLED pin n s)) = Z.to_nat n /\
  (other <> pin -> pulses other (snd (flashLED pin n s)) = 0%nat) /\
  blocked_ms (snd (flashLED pin n s)) = 400 * n /\
  (n = 0 -> snd (flashLED pin n s) = []).
Proof.
  intros Hn. unfold flashLED. rewrite times_pulse. cbn [fst snd].
  split; [reflexivity|]. split.
  - rewrite pulses_repeat, Z.eqb_refl. reflexivity.
  - split.
    + intros Hne. rewrite pulses_repeat.
      destruct (Z.eqb_spec other pin); [contradiction | reflexivity].
    + split.
      * rewrite blocked_ms_repeat, Z2Nat.id by lia. reflexivity.
      * intros H0. subst n. reflexivity.
Qed.

Lemma flashLED_pulses_witness :
  0 <= 2 <= 255 /\
  pulses 13 (snd (flashLED 13 2 (fst (boot atmega328p_current)))) = 2%nat.
Proof.
  split; [lia|].
  apply (flashLED_pulses 13 12 2 (fst (boot atmega328p_current))). lia.
Defined.

(** ** Start-up *)

Lemma wdrf_cleared (r : Z) : Z.testbit (Z.ldiff r (Z.shiftl 1 3)) 3 = false.
Proof. apply (ldiff_bit_clear r 3). lia. Qed.

(** Whatever the registers hold when [setup] starts (after power-on, or
    after a reset by the watchdog that left WDRF set and WDE forced), it
    ends with the watchdog armed for interrupts every 8 s, the reset cause
    cleared and interrupts enabled; it does not touch the budget, and its
    LED self-test is the same every time. *)
Theorem setup_arms_watchdog_from_any_state (cfg : config) (s : state) :
  WDTCR (fst (setup cfg s)) = WDTCR_armed /\
  Z.testbit (MCUSR (fst (setup cfg s))) WDRF = false /\
  SREG_I (fst (setup cfg s)) = true /\
  watchdogTimeoutsRemaining (fst (setup cfg s)) = watchdogTimeoutsRemaining s /\
  snd (setup cfg s) =
    [PinMode (WATCHDOG_TIMEOUT_LED_PIN (target cfg)) true;
     PinMode (SLEEP_INTERRUPT_LED_PIN (target cfg)) true;
     PinMode (INT0_PIN (target cfg)) false;
     DigitalWrite (INT0_PIN (target cfg)) true;
     PinMode (PCINT0_PIN (target cfg)) false;
     DigitalWrite (PCINT0_PIN (target cfg)) true;
     DigitalWrite (WATCHDOG_TIMEOUT_LED_PIN (target cfg)) true; Delay 1000;
     DigitalWrite (WATCHDOG_TIMEOUT_LED_PIN (target cfg)) false;
     DigitalWrite (SLEEP_INTERRUPT_LED_PIN (target cfg)) true; Delay 1000;
     DigitalWrite (SLEEP_INTERRUPT_LED_PIN (target cfg)) false].
Proof.
  destruct cfg as [[|] [|]]; destruct s;
    cbv -[Z.testbit Z.ldiff Z.lor Z.shiftl]; rewrite !wdrf_cleared;
    repeat split.
Qed.

Lemma bit_of_lor (r : Z) (b k : Z) :
  0 <= b -> 0 <= k ->
  Z.testbit (Z.lor r (Z.shiftl 1 b)) k = Z.testbit r k || (k =? b).
Proof.
  intros Hb Hk. rewrite Z.lor_spec, Z.shiftl_1_l.
  rewrite Z.pow2_bits_eqb by assumption. rewrite (Z.eqb_sym b k). reflexivity.
Qed.

Lemma bit_of_ldiff_lor (r : Z) (a b k : Z) :
  0 <= a -> 0 <= b -> 0 <= k ->
  Z.testbit (Z.ldiff r (Z.lor (Z.shiftl 1 a) (Z.shiftl 1 b))) k =
  Z.testbit r k && negb ((k =? a) || (k =? b)).
Proof.
  intros Ha Hb Hk. rewrite Z.ldiff_spec, Z.lor_spec, !Z.shiftl_1_l.
  rewrite !Z.pow2_bits_eqb by assumption.
  rewrite (Z.eqb_sym a k), (Z.eqb_sym b k). reflexivity.
Qed.

(** [configInt0] enables INT0 from any state.  The sense it selects is
    falling edge on the ATmega328P and low level on the ATtiny85 of the
    current sketch; the earlier ATtiny85 build only sets ISC01, so it selects
    falling edge exactly when ISC00 was clear before, and rising edge
    otherwise. *)
Theorem configInt0_selects_sense (cfg : config) (s : state) :
  int0_enabled cfg (fst (configInt0 cfg s)) = true /\
  int0_sense (fst (configInt0 cfg s)) = sense_after_configInt0 cfg s.
Proof.
  unfold int0_enabled, int0_sense, sense_after_configInt0.
  destruct cfg as [[|] [|]]; destruct s;
    cbv -[Z.testbit Z.ldiff Z.lor Z.shiftl];
    rewrite ?bit_of_lor, ?bit_of_ldiff_lor by lia;
    cbn [Z.eqb Pos.eqb orb andb negb];
    rewrite ?orb_true_r, ?andb_false_r, ?orb_false_r;
    split; reflexivity.
Qed.

Ltac bitwise :=
  apply Z.bits_inj'; intros ? _;
  rewrite ?Z.lor_spec, ?Z.ldiff_spec;
  repeat match goal with
         | |- context [Z.testbit ?a ?n] => destruct (Z.testbit a n)
         end;
  reflexivity.

(** The two interrupt set-up calls of [setup] can be made in either order,
    and making one of them twice is the same as making it once: on the
    ATtiny85, where both write GIMSK, neither undoes the other's bit. *)
Theorem interrupt_setup_calls_compose (cfg : config) (s : state) :
  fst ((configInt0 cfg ;; configPinChangeInt0 cfg) s) =
    fst ((configPinChangeInt0 cfg ;; configInt0 cfg) s) /\
  fst ((configInt0 cfg ;; configInt0 cfg) s) = fst (configInt0 cfg s) /\
  fst ((configPinChangeInt0 cfg ;; configPinChangeInt0 cfg) s) =
    fst (configPinChangeInt0 cfg s) /\
  pcint_enabled cfg (fst ((configPinChangeInt0 cfg ;; configInt0 cfg) s)) = true /\
  int0_enabled cfg (fst ((configInt0 cfg ;; configPinChangeInt0 cfg) s)) = true.
Proof.
  unfold pcint_enabled, int0_enabled.
  destruct cfg as [[|] [|]]; destruct s;
    cbv -[Z.testbit Z.ldiff Z.lor Z.shiftl];
    repeat split;
    try (f_equal; bitwise);
    rewrite ?Z.lor_spec, ?bit_of_lor by lia;
    cbn [Z.eqb Pos.eqb orb]; rewrite ?orb_true_r; reflexivity.
Qed.

(** ** A held INT0 input starves everything else *)

Lemma running_held_low (s : state) :
  running attiny85_current s -> int0_level s = false ->
  held_low attiny85_current s.
Proof.
  intros Hrun Hl. pose proof (running_sense _ s Hrun) as Hs.
  destruct Hrun as (_ & _ & Hi & _ & Hc2 & _).
  unfold held_low, int0_enabled. rewrite Hs, Hi, Hc2, Hl. repeat split.
Qed.

Lemma step_while_held (e : event) (s : state) :
  running attiny85_current s ->
  int0_level s = false ->
  int0_stays_low e = true ->
  let s' := fst (step attiny85_current e s) in
  let t := snd (step attiny85_current e s) in
  int0_level s' = false /\
  invocations WDT_vect t = 0%nat /\
  invocations PCINT0_vect t = 0%nat /\
  wake_cycles t = 0%nat /\
  (overrun e s = false ->
   watchdogTimeoutsRemaining s' = watchdogTimeoutsRemaining s /\
   WDTCR s' = WDTCR s /\
   t = (if is_cpu e
        then Interrupt INT0_vect :: handler_trace attiny85_current INT0_vect
        else []) /\
   (WDIF s = true \/ (is_timeout e = true /\ WDTCR s = WDTCR_armed) ->
    WDIF s' = true)).
Proof.
  intros Hrun Hl He. cbv zeta.
  destruct e as [|high|high|]; cbn [step is_cpu is_timeout].
  - rewrite (overrun_timeout _ s Hrun).
    destruct (watchdog_timeout_cases _ s Hrun)
      as [(Ht & Hw & Hf) | [(Ht & Hw & Hf) | (Ht & Hw)]]; rewrite Ht, ?Hw, ?Hf.
    + cbn [fst snd]. repeat split; assumption.
    + destruct (boot_from_facts attiny85_current true (int0_level s)
                  (pcint_level s))
        as (_ & _ & _ & _ & _ & _ & _ & Hlvl & _ & Htr).
      rewrite Htr, Hlvl. split; [exact Hl|].
      split; [reflexivity|]. split; [reflexivity|]. split; [reflexivity|].
      intros Hc. discriminate Hc.
    + cbn [fst snd]. repeat split; try assumption.
      intros [Hp | [_ Ha]]; [exact Hp|].
      vm_compute in Ha. discriminate Ha.
  - cbn in He. destruct high; [discriminate|].
    unfold update. cbn [fst snd].
    destruct (int0_edge s (int0_level s) false); repeat split;
      intros [Hp | [Hc _]]; first [exact Hp | discriminate Hc].
  - unfold update. cbn [fst snd].
    destruct (xorb (pcint_level s) high
              && Z.testbit (PCMSK s) (pcint_bit_of_pin (target attiny85_current)));
      repeat split; try assumption;
      intros [Hp | [Hc _]]; first [exact Hp | discriminate Hc].
  - unfold cpu.
    rewrite (held_low_pending _ s (running_held_low s Hrun Hl)).
    rewrite service_snd, handler_trace_correct.
    rewrite service_other_fst by discriminate.
    repeat split; try assumption.
    intros [Hp | [Hc _]]; first [exact Hp | discriminate Hc].
Qed.

Lemma overruns_zero_cons (cfg : config) (e : event) (evs : list event)
    (s : state) :
  overruns cfg (e :: evs) s = 0%nat ->
  overrun e s = false /\ overruns cfg evs (fst (step cfg e s)) = 0%nat.
Proof.
  cbn [overruns]. destruct (overrun e s); [lia|]. split; [reflexivity | lia].
Qed.

(** While the input is held and the chip is not reset. *)
Lemma held_without_reset (s : state) (evs : list event) :
  running attiny85_current s ->
  int0_level s = false ->
  forallb int0_stays_low evs = true ->
  overruns attiny85_current evs s = 0%nat ->
  let r := run attiny85_current evs s in
  watchdogTimeoutsRemaining (fst r) = watchdogTimeoutsRemaining s /\
  WDTCR (fst r) = WDTCR s /\
  snd r = concat (repeat (Interrupt INT0_vect
                            :: handler_trace attiny85_current INT0_vect)
                    (cpu_turns evs)).
Proof.
  cbv zeta. revert s. induction evs as [|e evs IH]; intros s Hrun Hl Hevs Hno.
  - repeat split.
  - cbn [forallb] in Hevs. apply andb_true_iff in Hevs as [He Hevs].
    apply overruns_zero_cons in Hno as [Ho Hno].
    destruct (step_while_held e s Hrun Hl He) as (H1 & _ & _ & _ & H5).
    destruct (H5 Ho) as (Hc & Hw & Ht & _).
    destruct (IH _ (step_running _ e s Hrun) H1 Hevs Hno) as (I1 & I2 & I3).
    rewrite run_cons. cbn [fst snd]. rewrite I1, I2, I3, Hc, Hw, Ht.
    split; [reflexivity|]. split; [reflexivity|].
    unfold cpu_turns. cbn [filter]. destruct (is_cpu e); reflexivity.
Qed.

Lemma held_pending_overrun (s : state) (evs : list event) :
  running attiny85_current s ->
  int0_level s = false ->
  forallb int0_stays_low evs = true ->
  WDTCR s = WDTCR_armed -> WDIF s = true ->
  (1 <= occurrences is_timeout evs)%nat ->
  (0 < overruns attiny85_current evs s)%nat.
Proof.
  revert s. induction evs as [|e evs IH]; intros s Hrun Hl Hevs Hw Hf Hn.
  - cbn in Hn. lia.
  - cbn [forallb] in Hevs. apply andb_true_iff in Hevs as [He Hevs].
    cbn [overruns]. destruct (overrun e s) eqn:Ho; [lia|].
    destruct (step_while_held e s Hrun Hl He) as (H1 & _ & _ & _ & H5).
    destruct (H5 Ho) as (_ & Hw' & _ & Hf').
    assert (Hnt : is_timeout e = false).
    { unfold overrun in Ho. rewrite Hw, Hf in Ho.
      destruct (is_timeout e); [discriminate Ho | reflexivity]. }
    rewrite occurrences_cons, Hnt in Hn. cbn [flag] in Hn.
    apply (IH _ (step_running _ e s Hrun) H1 Hevs); try assumption.
    + rewrite Hw'. exact Hw.
    + apply Hf'. left. exact Hf.
Qed.

Lemma held_two_timeouts_overrun (s : state) (evs : list event) :
  running attiny85_current s ->
  int0_level s = false ->
  forallb int0_stays_low evs = true ->
  WDTCR s = WDTCR_armed ->
  (2 <= occurrences is_timeout evs)%nat ->
  (0 < overruns attiny85_current evs s)%nat.
Proof.
  revert s. induction evs as [|e evs IH]; intros s Hrun Hl Hevs Hw Hn.
  - cbn in Hn. lia.
  - cbn [forallb] in Hevs. apply andb_true_iff in Hevs as [He Hevs].
    cbn [overruns]. destruct (overrun e s) eqn:Ho; [lia|].
    destruct (step_while_held e s Hrun Hl He) as (H1 & _ & _ & _ & H5).
    destruct (H5 Ho) as (_ & Hw' & _ & Hf').
    rewrite occurrences_cons in Hn.
    destruct (is_timeout e) eqn:Ht; cbn [flag] in Hn.
    + apply (held_pending_overrun _ evs (step_running _ e s Hrun) H1 Hevs).
      * rewrite Hw'. exact Hw.
      * apply Hf'. right. split; [reflexivity | exact Hw].
      * lia.
    + apply (IH _ (step_running _ e s Hrun) H1 Hevs).
      * rewrite Hw'. exact Hw.
      * lia.
Qed.

Lemma held_trace_counts (n : nat) :
  let t := concat (repeat (Interrupt INT0_vect
                             :: handler_trace attiny85_current INT0_vect) n) in
  SleepInterruptChannel attiny85_current t = 0%nat /\
  WatchdogTimeoutChannel attiny85_current t = (2 * n)%nat.
Proof.
  cbv zeta. induction n as [|n [I1 I2]].
  - split; reflexivity.
  - cbn [repeat concat].
    unfold SleepInterruptChannel, WatchdogTimeoutChannel in *.
    rewrite !pulses_app, I1, I2. split; [reflexivity|].
    change (pulses (WATCHDOG_TIMEOUT_LED_PIN (target attiny85_current))
              (Interrupt INT0_vect
               :: handler_trace attiny85_current INT0_vect)) with 2%nat.
    lia.
Qed.

(** While the INT0 input of the ATtiny85 is held low (current sketch), the
    watchdog and pin-change handlers never run and the main loop never wakes.
    As long as the chip is not reset, the budget and the watchdog register
    keep their values, the sleep-interrupt LED stays dark and the watchdog
    LED shows two pulses per turn of the core.  With the watchdog armed, the
    second watchdog period that elapses during the hold resets the chip:
    [setup] runs again. *)
Theorem held_int0_starves_the_rest (s : state) (evs : list event) :
  running attiny85_current s ->
  int0_level s = false ->
  forallb int0_stays_low evs = true ->
  let r := run attiny85_current evs s in
  invocations WDT_vect (snd r) = 0%nat /\
  invocations PCINT0_vect (snd r) = 0%nat /\
  wake_cycles (snd r) = 0%nat /\
  (setup_runs attiny85_current (snd r) = 0%nat ->
   watchdogTimeoutsRemaining (fst r) = watchdogTimeoutsRemaining s /\
   WDTCR (fst r) = WDTCR s /\
   SleepInterruptChannel attiny85_current (snd r) = 0%nat /\
   WatchdogTimeoutChannel attiny85_current (snd r) = (2 * cpu_turns evs)%nat) /\
  (WDTCR s = WDTCR_armed ->
   (2 <= occurrences is_timeout evs)%nat ->
   (0 < setup_runs attiny85_current (snd r))%nat).
Proof.
  intros Hrun Hl Hevs. cbv zeta.
  destruct (run_ledger attiny85_current evs s Hrun) as (Hsetup & _).
  assert (Hnone : invocations WDT_vect (snd (run attiny85_current evs s)) = 0%nat
                  /\ invocations PCINT0_vect
                       (snd (run attiny85_current evs s)) = 0%nat
                  /\ wake_cycles (snd (run attiny85_current evs s)) = 0%nat).
  { clear Hsetup. revert s Hrun Hl.
    induction evs as [|e evs IH]; intros s Hrun Hl.
    - repeat split.
    - cbn [forallb] in Hevs. apply andb_true_iff in Hevs as [He Hevs].
      destruct (step_while_held e s Hrun Hl He) as (H1 & H2 & H3 & H4 & _).
      destruct (IH Hevs _ (step_running _ e s Hrun) H1) as (I1 & I2 & I3).
      rewrite run_cons. cbn [snd].
      rewrite !invocations_app, wake_cycles_app, H2, H3, H4, I1, I2, I3.
      repeat split. }
  destruct Hnone as (N1 & N2 & N3).
  split; [exact N1|]. split; [exact N2|]. split; [exact N3|]. split.
  - intros Hno. rewrite Hsetup in Hno.
    destruct (held_without_reset s evs Hrun Hl Hevs Hno) as (Hc & Hw & Ht).
    rewrite Ht. destruct (held_trace_counts (cpu_turns evs)) as [T1 T2].
    repeat split; assumption.
  - intros Hw Hn. rewrite Hsetup.
    apply held_two_timeouts_overrun; assumption.
Qed.

Lemma held_int0_starves_the_rest_witness :
  running attiny85_current int0_just_pressed /\
  int0_level int0_just_pressed = false /\
  forallb int0_stays_low held_over_two_periods = true /\
  invocations WDT_vect
    (snd (run attiny85_current held_over_two_periods int0_just_pressed))
    = 0%nat /\
  (0 < setup_runs attiny85_current
         (snd (run attiny85_current held_over_two_periods int0_just_pressed)))%nat.
Proof.
  assert (Hrun : running attiny85_current int0_just_pressed)
    by (apply (step_running attiny85_current (Int0Level false));
        apply boot_running).
  split; [exact Hrun|]. split; [reflexivity|]. split; [reflexivity|].
  destruct (held_int0_starves_the_rest int0_just_pressed held_over_two_periods
              Hrun eq_refl eq_refl) as (Hw & _ & _ & _ & Hreset).
  split; [exact Hw|]. apply Hreset; [reflexivity | vm_compute; lia].
Defined.

(** ** Counting the budget down in idle operation *)

Lemma one_idle_period (cfg : config) (s : state) :
  asleep_armed cfg s ->
  let c' := int8 (watchdogTimeoutsRemaining s - 1) in
  let r := run cfg idle_period s in
  snd r = idle_cycle_trace cfg /\
  watchdogTimeoutsRemaining (fst r) = c' /\
  WDTCR (fst r) = (if c' =? 0 then 0 else WDTCR_armed) /\
  running cfg (fst r) /\ main (fst r) = Sleeping /\ WDIF (fst r) = false /\
  int0_request cfg (fst r) = false /\ pcint_request cfg (fst r) = false.
Proof.
  intros (Hrun & Hw & Hm & Hf & H0 & Hp). cbv zeta.
  pose proof (run_running cfg idle_period s Hrun) as Hrun'.
  pose proof Hrun as (_ & Hmc & Hi & _).
  revert Hrun'. unfold idle_period. rewrite !run_cons.
  cbn [run skip fst snd step]. rewrite app_nil_r.
  assert (E1 : watchdog_timeout cfg s = (with_WDIF true s, []))
    by (unfold watchdog_timeout; rewrite Hw, Hf; reflexivity).
  rewrite E1. cbn [fst snd app].
  set (s1 := with_WDIF true s).
  assert (E2 : cpu cfg s1 = service cfg WDT_vect s1).
  { unfold cpu, pending, wdt_request.
    change (SREG_I s1) with (SREG_I s).
    change (int0_request cfg s1) with (int0_request cfg s).
    change (pcint_request cfg s1) with (pcint_request cfg s).
    change (WDTCR s1) with (WDTCR s). change (WDIF s1) with true.
    rewrite Hi, H0, Hp, Hw. reflexivity. }
  rewrite !E2, service_snd, handler_trace_correct.
  rewrite (service_WDT_armed cfg s1 Hw Hmc).
  change (watchdogTimeoutsRemaining s1) with (watchdogTimeoutsRemaining s).
  set (c' := int8 (watchdogTimeoutsRemaining s - 1)).
  set (s2 := with_main Awake
               (with_SREG_I true (with_WDIF false (with_counter c' s1)))).
  assert (E3 : cpu cfg s2 = (loop_resume cfg ;; loop_enter) s2).
  { unfold cpu, pending, wdt_request.
    change (SREG_I s2) with true.
    change (int0_request cfg s2) with (int0_request cfg s).
    change (pcint_request cfg s2) with (pcint_request cfg s).
    change (WDIF s2) with false.
    rewrite H0, Hp, andb_false_r. reflexivity. }
  rewrite !E3, main_turn_trace, main_turn_fst.
  change (watchdogTimeoutsRemaining s2) with c'.
  intros Hrun'. split; [reflexivity|].
  destruct (c' =? 0);
    (split; [reflexivity|]; split; [first [reflexivity | exact Hw]|];
     split; [exact Hrun'|];
     split; [reflexivity|]; split; [reflexivity|];
     split; [exact H0 | exact Hp]).
Qed.

Lemma idle_periods_succ (n : nat) :
  idle_periods (S n) = idle_period ++ idle_periods n.
Proof. reflexivity. Qed.

Lemma idle_periods_add (a b : nat) :
  idle_periods (a + b) = idle_periods a ++ idle_periods b.
Proof.
  unfold idle_periods. rewrite repeat_app, concat_app. reflexivity.
Qed.

Lemma repeat_cycles_add (cfg : config) (a b : nat) :
  concat (repeat (idle_cycle_trace cfg) a)
    ++ concat (repeat (idle_cycle_trace cfg) b)
  = concat (repeat (idle_cycle_trace cfg) (a + b)).
Proof. rewrite repeat_app, concat_app. reflexivity. Qed.

Lemma idle_cycles_counts (cfg : config) (n : nat) :
  let t := concat (repeat (idle_cycle_trace cfg) n) in
  invocations WDT_vect t = n /\ invocations INT0_vect t = 0%nat /\
  wake_cycles t = n /\
  WatchdogTimeoutChannel cfg t = n /\ SleepInterruptChannel cfg t = n /\
  invocations PCINT0_vect t = 0%nat.
Proof.
  cbv zeta. induction n as [|n (I1 & I2 & I3 & I4 & I5 & I6)].
  - destruct cfg as [[|] [|]]; repeat split.
  - cbn [repeat concat]. unfold WatchdogTimeoutChannel, SleepInterruptChannel in *.
    rewrite !invocations_app, wake_cycles_app, !pulses_app,
      I1, I2, I3, I4, I5, I6.
    destruct cfg as [[|] [|]]; repeat split.
Qed.

(** Counting down without reaching 0 and without wrapping. *)
Lemma idle_countdown (cfg : config) (n : nat) (s : state) :
  asleep_armed cfg s ->
  watchdogTimeoutsRemaining s <= 0 \/
    Z.of_nat n < watchdogTimeoutsRemaining s ->
  -128 <= watchdogTimeoutsRemaining s - Z.of_nat n ->
  let r := run cfg (idle_periods n) s in
  asleep_armed cfg (fst r) /\
  watchdogTimeoutsRemaining (fst r) = watchdogTimeoutsRemaining s - Z.of_nat n /\
  snd r = concat (repeat (idle_cycle_trace cfg) n).
Proof.
  revert s. induction n as [|n IH]; intros s Harmed Hnz Hlow; cbv zeta.
  - cbn [idle_periods repeat concat run skip fst snd].
    repeat split; try apply Harmed. lia.
  - pose proof Harmed as (Hrun & _).
    destruct Hrun as (_ & _ & _ & _ & _ & _ & _ & Hr).
    destruct (one_idle_period cfg s Harmed)
      as (Ht & Hc & Hw & Hrun1 & Hm1 & Hf1 & H01 & Hp1).
    assert (Hdec : int8 (watchdogTimeoutsRemaining s - 1)
                   = watchdogTimeoutsRemaining s - 1)
      by (apply int8_in_range; lia).
    rewrite Hdec in Hc, Hw.
    assert (Hne : (watchdogTimeoutsRemaining s - 1 =? 0) = false)
      by (apply Z.eqb_neq; lia).
    rewrite Hne in Hw.
    assert (Harmed1 : asleep_armed cfg (fst (run cfg idle_period s)))
      by (repeat split; try assumption; apply Hrun1).
    rewrite idle_periods_succ, run_app. cbn [fst snd].
    destruct (IH _ Harmed1) as (I1 & I2 & I3); [lia | lia |].
    rewrite Ht, I2, I3, Hc.
    split; [exact I1|]. split; [lia | reflexivity].
Qed.

Lemma last_idle_period (cfg : config) (s : state) :
  asleep_armed cfg s ->
  watchdogTimeoutsRemaining s = 1 ->
  let r := run cfg idle_period s in
  WDTCR (fst r) = 0 /\ watchdogTimeoutsRemaining (fst r) = 0 /\
  running cfg (fst r) /\ main (fst r) = Sleeping /\
  int0_request cfg (fst r) = false /\ pcint_request cfg (fst r) = false /\
  snd r = idle_cycle_trace cfg.
Proof.
  intros Harmed Hc. cbv zeta.
  destruct (one_idle_period cfg s Harmed)
    as (Ht & Hc' & Hw & Hrun1 & Hm1 & _ & H01 & Hp1).
  rewrite Hc in Hc', Hw. cbn in Hc', Hw.
  rewrite Ht. split; [exact Hw|]. split; [exact Hc'|].
  split; [exact Hrun1|]. repeat split; assumption.
Qed.

Lemma wrapping_idle_period (cfg : config) (s : state) :
  asleep_armed cfg s ->
  watchdogTimeoutsRemaining s = -128 ->
  let r := run cfg idle_period s in
  asleep_armed cfg (fst r) /\ watchdogTimeoutsRemaining (fst r) = 127 /\
  snd r = idle_cycle_trace cfg.
Proof.
  intros Harmed Hc. cbv zeta.
  destruct (one_idle_period cfg s Harmed)
    as (Ht & Hc' & Hw & Hrun1 & Hm1 & Hf1 & H01 & Hp1).
  rewrite Hc in Hc', Hw. cbn in Hc', Hw.
  rewrite Ht. repeat split; try assumption; apply Hrun1.
Qed.

Lemma idle_periods_one : idle_periods 1 = idle_period.
Proof. reflexivity. Qed.

Lemma repeat_cycles_one (cfg : config) :
  concat (repeat (idle_cycle_trace cfg) 1) = idle_cycle_trace cfg.
Proof. cbn [repeat concat]. apply app_nil_r. Qed.

(** The watchdog stays armed for every number of idle periods below
    [periods_until_off]. *)
Lemma idle_still_armed (cfg : config) (k : nat) (s : state) :
  asleep_armed cfg s ->
  (k < periods_until_off (watchdogTimeoutsRemaining s))%nat ->
  let r := run cfg (idle_periods k) s in
  asleep_armed cfg (fst r) /\
  int8 (watchdogTimeoutsRemaining s - Z.of_nat k)
    = watchdogTimeoutsRemaining (fst r) /\
  snd r = concat (repeat (idle_cycle_trace cfg) k).
Proof.
  intros Harmed Hk. cbv zeta.
  pose proof Harmed as (Hrun & _).
  destruct Hrun as (_ & _ & _ & _ & _ & _ & _ & Hr).
  set (c := watchdogTimeoutsRemaining s) in *.
  unfold periods_until_off in Hk.
  destruct (Z.ltb_spec 0 c) as [Hpos|Hneg].
  - destruct (idle_countdown cfg k s Harmed) as (I1 & I2 & I3);
      fold c; try lia.
    fold c in I2. rewrite I2, int8_in_range by lia.
    split; [exact I1|]. split; [reflexivity | exact I3].
  - destruct (Nat.le_gt_cases k (Z.to_nat (c + 128))) as [Hle|Hgt].
    + destruct (idle_countdown cfg k s Harmed) as (I1 & I2 & I3);
        fold c; try lia.
      fold c in I2. rewrite I2, int8_in_range by lia.
      split; [exact I1|]. split; [reflexivity | exact I3].
    + set (a := Z.to_nat (c + 128)) in *.
      set (j := (k - a - 1)%nat).
      assert (Hkj : k = (a + (1 + j))%nat) by lia.
      assert (Hwrap : int8 (c - Z.of_nat k) = 127 - Z.of_nat j).
      { unfold int8.
        replace (c - Z.of_nat k + 128) with (255 - Z.of_nat j + (-1) * 256)
          by lia.
        rewrite Z.mod_add, Z.mod_small by lia. lia. }
      rewrite Hwrap, Hkj, !idle_periods_add, !run_app, idle_periods_one.
      cbn [fst snd].
      destruct (idle_countdown cfg a s Harmed) as (A1 & A2 & A3);
        fold c; try lia.
      fold c in A2.
      set (sa := fst (run cfg (idle_periods a) s)) in *.
      assert (Ha : watchdogTimeoutsRemaining sa = -128) by lia.
      destruct (wrapping_idle_period cfg sa A1 Ha) as (B1 & B2 & B3).
      set (sb := fst (run cfg idle_period sa)) in *.
      destruct (idle_countdown cfg j sb B1) as (C1 & C2 & C3);
        try (rewrite B2; lia).
      rewrite A3, B3, C3, C2, B2.
      split; [exact C1|]. split; [reflexivity|].
      rewrite <- (repeat_cycles_one cfg) at 2.
      rewrite !repeat_cycles_add. reflexivity.
Qed.

(** The period in which the main loop finds the budget at 0. *)
Lemma idle_switch_off (cfg : config) (s : state) :
  asleep_armed cfg s ->
  let total := periods_until_off (watchdogTimeoutsRemaining s) in
  let r := run cfg (idle_periods total) s in
  (0 < total <= 256)%nat /\
  WDTCR (fst r) = 0 /\ watchdogTimeoutsRemaining (fst r) = 0 /\
  running cfg (fst r) /\ main (fst r) = Sleeping /\
  int0_request cfg (fst r) = false /\ pcint_request cfg (fst r) = false /\
  snd r = concat (repeat (idle_cycle_trace cfg) total).
Proof.
  intros Harmed. cbv zeta.
  pose proof Harmed as (Hrun & _).
  destruct Hrun as (_ & _ & _ & _ & _ & _ & _ & Hr).
  set (c := watchdogTimeoutsRemaining s) in *.
  assert (Htot : (0 < periods_until_off c <= 256)%nat).
  { unfold periods_until_off. destruct (Z.ltb_spec 0 c); lia. }
  split; [exact Htot|].
  set (p := pred (periods_until_off c)).
  assert (Hp : (p < periods_until_off c)%nat) by (unfold p; lia).
  destruct (idle_still_armed cfg p s Harmed Hp) as (P1 & P2 & P3).
  assert (Hone : watchdogTimeoutsRemaining (fst (run cfg (idle_periods p) s)) = 1).
  { rewrite <- P2. fold c. unfold p, periods_until_off.
    destruct (Z.ltb_spec 0 c).
    - rewrite int8_in_range by lia. lia.
    - unfold int8.
      replace (c - Z.of_nat (pred (Z.to_nat (c + 256))) + 128)
        with (129 + (-1) * 256) by lia.
      rewrite Z.mod_add, Z.mod_small by lia. lia. }
  destruct (last_idle_period cfg _ P1 Hone)
    as (L1 & L2 & L3 & L4 & L5 & L6 & L7).
  replace (periods_until_off c) with (p + 1)%nat by (unfold p; lia).
  rewrite idle_periods_add, run_app, idle_periods_one. cbn [fst snd].
  rewrite P3, L7. rewrite <- (repeat_cycles_one cfg) at 2.
  rewrite repeat_cycles_add.
  split; [exact L1|]. split; [exact L2|]. split; [exact L3|].
  split; [exact L4|]. split; [exact L5|]. split; [exact L6 | reflexivity].
Qed.

(** In idle operation the watchdog is switched off after exactly
    [periods_until_off] watchdog periods, and not earlier: after a positive
    budget [c] that is [c] periods; after a budget that has been stepped
    over 0 the counter has to wrap first, and it takes [c + 256] periods.
    Each period before shows one watchdog handler run and one wake-up. *)
Theorem idle_watchdog_switch_off (cfg : config) (s : state) (k : nat) :
  asleep_armed cfg s ->
  let total := periods_until_off (watchdogTimeoutsRemaining s) in
  let r := run cfg (idle_periods total) s in
  WDTCR (fst r) = 0 /\
  watchdogTimeoutsRemaining (fst r) = 0 /\
  invocations WDT_vect (snd r) = total /\
  wake_cycles (snd r) = total /\
  (0 < total <= 256)%nat /\
  ((k < total)%nat ->
   WDTCR (fst (run cfg (idle_periods k) s)) = WDTCR_armed /\
   invocations WDT_vect (snd (run cfg (idle_periods k) s)) = k).
Proof.
  intros Harmed. cbv zeta.
  destruct (idle_switch_off cfg s Harmed)
    as (Htot & Hw & Hc & _ & _ & _ & _ & Ht).
  destruct (idle_cycles_counts cfg
              (periods_until_off (watchdogTimeoutsRemaining s)))
    as (N1 & _ & N3 & _).
  rewrite Ht, N1, N3.
  split; [exact Hw|]. split; [exact Hc|]. split; [reflexivity|].
  split; [reflexivity|]. split; [exact Htot|].
  intros Hk. destruct (idle_still_armed cfg k s Harmed Hk) as (A1 & _ & A3).
  split; [apply A1|]. rewrite A3. apply (idle_cycles_counts cfg k).
Qed.

Lemma idle_watchdog_switch_off_witness :
  asleep_armed attiny85_current after_skipped_zero /\
  watchdogTimeoutsRemaining after_skipped_zero = -1 /\
  WDTCR (fst (run attiny85_current (idle_periods 255) after_skipped_zero)) = 0 /\
  WDTCR (fst (run attiny85_current (idle_periods 254) after_skipped_zero))
    = WDTCR_armed.
Proof.
  assert (Harmed : asleep_armed attiny85_current after_skipped_zero).
  { unfold asleep_armed, running.
    repeat split; try reflexivity; try (left; reflexivity);
      vm_compute; discriminate. }
  split; [exact Harmed|]. split; [reflexivity|].
  destruct (idle_watchdog_switch_off attiny85_current after_skipped_zero 254
              Harmed) as (Hoff & _ & _ & _ & _ & Hbefore).
  split; [exact Hoff|]. apply Hbefore. vm_compute. reflexivity.
Defined.

Lemma idle_period_when_off (cfg : config) (s : state) :
  SREG_I s = true -> WDTCR s = 0 -> main s = Sleeping ->
  int0_request cfg s = false -> pcint_request cfg s = false ->
  run cfg idle_period s = (s, []).
Proof.
  intros Hi Hw Hm H0 Hp.
  assert (E1 : watchdog_timeout cfg s = (s, []))
    by (unfold watchdog_timeout; rewrite Hw, !Z.testbit_0_l; reflexivity).
  assert (E2 : cpu cfg s = (s, [])).
  { unfold cpu, pending, wdt_request.
    rewrite Hi, H0, Hp, Hw, Z.testbit_0_l, Hm. reflexivity. }
  unfold idle_period. rewrite !run_cons. cbn [run skip step fst snd].
  rewrite E1. cbn [fst snd]. rewrite E2. cbn [fst snd]. rewrite E2.
  reflexivity.
Qed.

Lemma idle_periods_when_off (cfg : config) (m : nat) (s : state) :
  SREG_I s = true -> WDTCR s = 0 -> main s = Sleeping ->
  int0_request cfg s = false -> pcint_request cfg s = false ->
  run cfg (idle_periods m) s = (s, []).
Proof.
  intros Hi Hw Hm H0 Hp. induction m as [|m IH].
  - reflexivity.
  - rewrite idle_periods_succ, run_app.
    rewrite (idle_period_when_off cfg s Hi Hw Hm H0 Hp). cbn [fst snd].
    rewrite IH. reflexivity.
Qed.

Lemma boot_asleep_armed (cfg : config) : asleep_armed cfg (fst (boot cfg)).
Proof.
  split; [apply boot_running|].
  destruct cfg as [[|] [|]]; repeat split.
Qed.

Lemma boot_budget (cfg : config) :
  watchdogTimeoutsRemaining (fst (boot cfg)) = initial_budget cfg /\
  periods_until_off (initial_budget cfg) = Z.to_nat (initial_budget cfg).
Proof. destruct cfg as [[|] [|]]; split; reflexivity. Qed.

(** Idle operation from power-on, for any number of watchdog periods and
    either revision: the watchdog handler runs, the watchdog LED pulses, the
    main loop wakes and the sleep-interrupt LED pulses once per period until
    the budget of the build (10, or 20 in the earlier revision) is used up,
    and never after. *)
Theorem idle_run_from_power_on (cfg : config) (n : nat) :
  let t := snd (run cfg (idle_periods n) (fst (boot cfg))) in
  let served := Nat.min n (Z.to_nat (initial_budget cfg)) in
  invocations WDT_vect t = served /\
  WatchdogTimeoutChannel cfg t = served /\
  wake_cycles t = served /\
  SleepInterruptChannel cfg t = served /\
  handler_runs t = served.
Proof.
  cbv zeta.
  destruct (boot_budget cfg) as [Hb Hp].
  pose proof (boot_asleep_armed cfg) as Harmed.
  set (b := Z.to_nat (initial_budget cfg)) in *.
  assert (Hshape : snd (run cfg (idle_periods n) (fst (boot cfg)))
                   = concat (repeat (idle_cycle_trace cfg) (Nat.min n b))).
  { destruct (Nat.lt_ge_cases n b) as [Hlt|Hge].
    - rewrite Nat.min_l by lia.
      assert (Hn : (n < periods_until_off
                         (watchdogTimeoutsRemaining (fst (boot cfg))))%nat)
        by (rewrite Hb, Hp; exact Hlt).
      destruct (idle_still_armed cfg n _ Harmed Hn) as (_ & _ & A3).
      exact A3.
    - rewrite Nat.min_r by lia.
      replace n with (b + (n - b))%nat by lia.
      rewrite idle_periods_add, run_app. cbn [snd].
      destruct (idle_switch_off cfg _ Harmed)
        as (_ & Hw & _ & Hrun & Hm & H0 & Hpc & Ht).
      rewrite Hb, Hp in Hw, Hrun, Hm, H0, Hpc, Ht. fold b in Hw, Hrun, Hm, H0, Hpc, Ht.
      destruct Hrun as (_ & _ & Hi & _).
      rewrite (idle_periods_when_off cfg (n - b) _ Hi Hw Hm H0 Hpc).
      cbn [snd]. rewrite app_nil_r. exact Ht. }
  rewrite Hshape.
  destruct (idle_cycles_counts cfg (Nat.min n b))
    as (N1 & N2 & N3 & N4 & N5 & N6).
  repeat split; try assumption.
  unfold handler_runs. rewrite N1, N2, N6. lia.
Qed.

(** ** Idle operation with any number of core turns *)

Lemma cpu_when_idling (cfg : config) (s : state) :
  idling cfg s -> cpu cfg s = (s, []).
Proof.
  intros ((_ & _ & Hi & _) & Hm & Hf & H0 & Hp).
  unfold cpu, pending, wdt_request.
  rewrite Hi, H0, Hp, Hf, andb_false_r, Hm. reflexivity.
Qed.

Lemma turns_when_idling (cfg : config) (n : nat) (s : state) :
  idling cfg s -> run cfg (repeat Cpu n) s = (s, []).
Proof.
  intros Hidle. induction n as [|n IH]; [reflexivity|].
  cbn [repeat]. rewrite run_cons. cbn [step].
  rewrite (cpu_when_idling cfg s Hidle). cbn [fst snd]. rewrite IH.
  reflexivity.
Qed.

Lemma idle_period_keeps_idling (cfg : config) (s : state) :
  idling cfg s -> idling cfg (fst (run cfg idle_period s)).
Proof.
  intros Hidle. pose proof Hidle as (Hrun & Hm & Hf & H0 & Hp).
  pose proof Hrun as ([Hw|Hw] & _ & Hi & _).
  - destruct (one_idle_period cfg s)
      as (_ & _ & _ & Hrun1 & Hm1 & Hf1 & H01 & Hp1).
    + repeat split; try assumption; apply Hrun.
    + repeat split; try assumption; apply Hrun1.
  - rewrite (idle_period_when_off cfg s Hi Hw Hm H0 Hp). exact Hidle.
Qed.

(** Further turns of the sleeping core change nothing: a period with any
    number of core turns is a period with two. *)
Lemma idle_period_with_turns (cfg : config) (extra : nat) (s : state) :
  idling cfg s ->
  run cfg (idle_period_with extra) s = run cfg idle_period s.
Proof.
  intros Hidle.
  change (idle_period_with extra) with (idle_period ++ repeat Cpu extra).
  rewrite run_app.
  rewrite (turns_when_idling cfg extra _ (idle_period_keeps_idling cfg s Hidle)).
  cbn [fst snd]. rewrite app_nil_r. symmetry. apply surjective_pairing.
Qed.

Lemma idle_schedule_as_periods (cfg : config) (extras : list nat) (s : state) :
  idling cfg s ->
  run cfg (idle_schedule extras) s = run cfg (idle_periods (length extras)) s.
Proof.
  revert s. induction extras as [|k extras IH]; intros s Hidle.
  - reflexivity.
  - change (idle_schedule (k :: extras))
      with (idle_period_with k ++ idle_schedule extras).
    cbn [length]. rewrite idle_periods_succ, !run_app.
    rewrite (idle_period_with_turns cfg k s Hidle).
    rewrite (IH _ (idle_period_keeps_idling cfg s Hidle)). reflexivity.
Qed.

Lemma boot_idling (cfg : config) : idling cfg (fst (boot cfg)).
Proof.
  split; [apply boot_running|].
  destruct cfg as [[|] [|]]; repeat split.
Qed.

(** C5.  With the budget of 10 of the current sketch, ten watchdog periods of
    idle operation, with any number of turns of the core in each, show
    exactly ten pulses on the watchdog LED and ten on the sleep-interrupt
    LED, and leave the core asleep; from then on, without manual input, the
    watchdog LED is never driven again and the watchdog vector never taken,
    however many periods elapse. *)
Theorem idle_scenario_budget_10
    (m : mcu) (turns : list nat) (later : list event) :
  length turns = 10%nat ->
  forallb no_manual_input later = true ->
  let cfg := {| target := m; rev := Current |} in
  let first80 := run cfg (idle_schedule turns) (fst (boot cfg)) in
  initial_budget cfg = 10 /\
  WatchdogTimeoutChannel cfg (snd first80) = 10%nat /\
  SleepInterruptChannel cfg (snd first80) = 10%nat /\
  invocations WDT_vect (snd first80) = 10%nat /\
  wake_cycles (snd first80) = 10%nat /\
  main (fst first80) = Sleeping /\
  WatchdogTimeoutChannel cfg (snd (run cfg later (fst first80))) = 0%nat /\
  invocations WDT_vect (snd (run cfg later (fst first80))) = 0%nat.
Proof.
  intros Hlen Hlater. cbv zeta.
  set (cfg := {| target := m; rev := Current |}).
  rewrite (idle_schedule_as_periods cfg turns _ (boot_idling cfg)), Hlen.
  assert (Hoff : WDTCR (fst (run cfg (idle_periods 10) (fst (boot cfg)))) = 0)
    by (destruct m; vm_compute; reflexivity).
  assert (Hreq : int0_request cfg
                   (fst (run cfg (idle_periods 10) (fst (boot cfg)))) = false)
    by (destruct m; vm_compute; reflexivity).
  destruct (watchdog_off_forever cfg later _ Hoff) as (_ & Hw & Hled).
  pose proof (idle_no_int0 cfg later _ Hlater Hoff Hreq) as Hi.
  repeat match goal with |- _ /\ _ => split end;
    try (destruct m; vm_compute; reflexivity).
  - apply Hled. exact Hi.
  - exact Hw.
Qed.

Lemma idle_scenario_budget_10_witness :
  length sample_turns = 10%nat /\
  forallb no_manual_input (idle_periods 50) = true /\
  SleepInterruptChannel attiny85_current
    (snd (run attiny85_current (idle_schedule sample_turns)
            (fst (boot attiny85_current)))) = 10%nat /\
  WatchdogTimeoutChannel attiny85_current
    (snd (run attiny85_current (idle_periods 50)
            (fst (run attiny85_current (idle_schedule sample_turns)
                    (fst (boot attiny85_current)))))) = 0%nat.
Proof.
  split; [reflexivity|]. split; [reflexivity|].
  destruct (idle_scenario_budget_10 ATtiny85 sample_turns (idle_periods 50)
              eq_refl eq_refl) as (_ & _ & Hsleep & _ & _ & _ & Hlater & _).
  split; [exact Hsleep | exact Hlater].
Defined.

(** ** Pins and delays over whole runs *)

Lemma releases_app (pin : Z) (t u : trace) :
  releases pin (t ++ u) = (releases pin t + releases pin u)%nat.
Proof. unfold releases. rewrite filter_app, length_app. reflexivity. Qed.

Lemma pulses_driven (pin : Z) (t : trace) :
  pulses pin t = count_pin pin (driven true t).
Proof.
  unfold pulses. induction t as [|a t IH]; [reflexivity|].
  destruct a as [p o|p [|]|ms|v|]; cbn [filter is_pulse driven Bool.eqb];
    try exact IH.
  cbn [count_pin]. unfold pin_flag at 1.
  destruct (p =? pin); cbn [length]; rewrite IH; reflexivity.
Qed.

Lemma releases_driven (pin : Z) (t : trace) :
  releases pin t = count_pin pin (driven false t).
Proof.
  unfold releases. induction t as [|a t IH]; [reflexivity|].
  destruct a as [p o|p [|]|ms|v|]; cbn [filter is_release driven Bool.eqb];
    try exact IH.
  cbn [count_pin]. unfold pin_flag at 1.
  destruct (p =? pin); cbn [length]; rewrite IH; reflexivity.
Qed.

Ltac by_pin_flags :=
  rewrite pulses_driven, releases_driven;
  cbv -[pin_flag Nat.add Nat.mul];
  repeat split; lia.

(** The pins one chunk of a trace drives: the LEDs as the ledger says, high
    and low alike, and per run of [setup] each LED once more and each switch
    input once high (its pull-up) and never low. *)
Lemma chunk_pins (cfg : config) (pin : Z) (t : trace) :
  t = [] \/
  (exists v, t = Interrupt v :: handler_trace cfg v) \/
  t = Wakeup :: pulse (SLEEP_INTERRUPT_LED_PIN (target cfg)) \/
  t = snd (boot cfg) ->
  pulses pin t =
    (signalled cfg pin t
     + setup_runs cfg t
       * (pin_flag (WATCHDOG_TIMEOUT_LED_PIN (target cfg)) pin
          + pin_flag (SLEEP_INTERRUPT_LED_PIN (target cfg)) pin
          + pin_flag (INT0_PIN (target cfg)) pin
          + pin_flag (PCINT0_PIN (target cfg)) pin))%nat /\
  releases pin t =
    (signalled cfg pin t
     + setup_runs cfg t
       * (pin_flag (WATCHDOG_TIMEOUT_LED_PIN (target cfg)) pin
          + pin_flag (SLEEP_INTERRUPT_LED_PIN (target cfg)) pin))%nat /\
  blocked_ms t =
    2000 * Z.of_nat (setup_runs cfg t)
    + 400 * Z.of_nat (invocations WDT_vect t)
    + 400 * Z.of_nat (wake_cycles t)
    + int0_blocking_ms cfg * Z.of_nat (invocations INT0_vect t)
    + 50 * Z.of_nat (invocations PCINT0_vect t).
Proof.
  intros [Ht | [(v & Ht) | [Ht | Ht]]]; subst t.
  - destruct cfg as [[|] [|]]; by_pin_flags.
  - destruct v, cfg as [[|] [|]]; by_pin_flags.
  - destruct cfg as [[|] [|]]; by_pin_flags.
  - destruct cfg as [[|] [|]]; by_pin_flags.
Qed.

Lemma step_chunk (cfg : config) (e : event) (s : state) :
  running cfg s ->
  snd (step cfg e s) = [] \/
  (exists v, snd (step cfg e s) = Interrupt v :: handler_trace cfg v) \/
  snd (step cfg e s) = Wakeup :: pulse (SLEEP_INTERRUPT_LED_PIN (target cfg)) \/
  snd (step cfg e s) = snd (boot cfg).
Proof.
  intros Hrun.
  destruct (step_outcome cfg e s Hrun)
    as [(Ht & _) | [(v & Ht & _) | [(_ & Ht & _) | (Ht & _)]]].
  - left. exact Ht.
  - right. left. exists v. exact Ht.
  - right. right. left. exact Ht.
  - right. right. right. exact Ht.
Qed.

Lemma signalled_app (cfg : config) (pin : Z) (t u : trace) :
  signalled cfg pin (t ++ u) = (signalled cfg pin t + signalled cfg pin u)%nat.
Proof.
  unfold signalled, pin_flag. rewrite !invocations_app, wake_cycles_app.
  destruct (WATCHDOG_TIMEOUT_LED_PIN (target cfg) =? pin),
           (SLEEP_INTERRUPT_LED_PIN (target cfg) =? pin),
           (rev cfg); cbn [int0_led_pulses]; lia.
Qed.

Lemma run_pins (cfg : config) (pin : Z) (evs : list event) (s : state) :
  running cfg s ->
  let t := snd (run cfg evs s) in
  pulses pin t =
    (signalled cfg pin t
     + setup_runs cfg t
       * (pin_flag (WATCHDOG_TIMEOUT_LED_PIN (target cfg)) pin
          + pin_flag (SLEEP_INTERRUPT_LED_PIN (target cfg)) pin
          + pin_flag (INT0_PIN (target cfg)) pin
          + pin_flag (PCINT0_PIN (target cfg)) pin))%nat /\
  releases pin t =
    (signalled cfg pin t
     + setup_runs cfg t
       * (pin_flag (WATCHDOG_TIMEOUT_LED_PIN (target cfg)) pin
          + pin_flag (SLEEP_INTERRUPT_LED_PIN (target cfg)) pin))%nat /\
  blocked_ms t =
    2000 * Z.of_nat (setup_runs cfg t)
    + 400 * Z.of_nat (invocations WDT_vect t)
    + 400 * Z.of_nat (wake_cycles t)
    + int0_blocking_ms cfg * Z.of_nat (invocations INT0_vect t)
    + 50 * Z.of_nat (invocations PCINT0_vect t).
Proof.
  revert s. induction evs as [|e evs IH]; intros s Hrun; cbv zeta.
  - apply (chunk_pins cfg pin []). left. reflexivity.
  - rewrite run_cons. cbn [snd].
    destruct (chunk_pins cfg pin _ (step_chunk cfg e s Hrun)) as (H1 & H2 & H3).
    destruct (IH _ (step_running cfg e s Hrun)) as (I1 & I2 & I3).
    rewrite pulses_app, releases_app, blocked_ms_app, signalled_app,
      setup_runs_app, !invocations_app, wake_cycles_app.
    rewrite H1, H2, H3, I1, I2, I3.
    repeat split; lia.
Qed.

Lemma power_on_pins (cfg : config) (pin : Z) (evs : list event) :
  let t := from_power_on cfg evs in
  pulses pin t =
    (signalled cfg pin t
     + setup_runs cfg t
       * (pin_flag (WATCHDOG_TIMEOUT_LED_PIN (target cfg)) pin
          + pin_flag (SLEEP_INTERRUPT_LED_PIN (target cfg)) pin
          + pin_flag (INT0_PIN (target cfg)) pin
          + pin_flag (PCINT0_PIN (target cfg)) pin))%nat /\
  releases pin t =
    (signalled cfg pin t
     + setup_runs cfg t
       * (pin_flag (WATCHDOG_TIMEOUT_LED_PIN (target cfg)) pin
          + pin_flag (SLEEP_INTERRUPT_LED_PIN (target cfg)) pin))%nat /\
  blocked_ms t =
    2000 * Z.of_nat (setup_runs cfg t)
    + 400 * Z.of_nat (invocations WDT_vect t)
    + 400 * Z.of_nat (wake_cycles t)
    + int0_blocking_ms cfg * Z.of_nat (invocations INT0_vect t)
    + 50 * Z.of_nat (invocations PCINT0_vect t).
Proof.
  cbv zeta. unfold from_power_on.
  destruct (chunk_pins cfg pin (snd (boot cfg))) as (H1 & H2 & H3);
    [right; right; right; reflexivity|].
  destruct (run_pins cfg pin evs _ (boot_running cfg)) as (I1 & I2 & I3).
  rewrite pulses_app, releases_app, blocked_ms_app, signalled_app,
    setup_runs_app, !invocations_app, wake_cycles_app.
  rewrite H1, H2, H3, I1, I2, I3.
  repeat split; lia.
Qed.





(** From power-on, start-up included, the arguments of all calls of
    [delay] add up to 2000 ms per run of [setup], 400 ms per watchdog
    handler run and per wake-up of the main loop, 800 ms per INT0 handler
    run (50 ms in the earlier revision) and 50 ms per pin-change handler
    run. *)
Theorem requested_delay_ledger (cfg : config) (evs : list event) :
  let t := from_power_on cfg evs in
  blocked_ms t =
  2000 * Z.of_nat (setup_runs cfg t)
  + 400 * Z.of_nat (invocations WDT_vect t)
  + 400 * Z.of_nat (wake_cycles t)
  + int0_blocking_ms cfg * Z.of_nat (invocations INT0_vect t)
  + 50 * Z.of_nat (invocations PCINT0_vect t).
Proof.
  cbv zeta. apply (power_on_pins cfg 0 evs).
Qed.
